(** * up_vfork (os/arch/arm/src/common/up_vfork.c)

    A shallow embedding of the ARM back end of vfork() and the properties
    of its context transfer: stack copy, frame-pointer re-basing, saved
    registers, system-call return records and the failure paths.

    Machine words are integers in [0, 2^32) with the wrap-around of the
    unsigned 32-bit arithmetic written out; the register save area and the
    system-call return stack are lists updated by index; the calls into the
    rest of the kernel are recorded in a log. *)

From Stdlib Require Import ZArith Lia List Bool.
From stdpp Require Import base list.
Import ListNotations.
Local Open Scope Z_scope.

(** ** 32-bit unsigned arithmetic (uint32_t, and size_t on 32-bit ARM) *)

Definition modulus : Z := 2 ^ 32.

Definition wrap (z : Z) : Z := z mod modulus.

Definition sub32 (a b : Z) : Z := wrap (a - b).

Definition is_word (z : Z) : Prop := 0 <= z < modulus.

(** ** Data model *)

(** struct vfork_s: the context saved by vfork() at the call site. *)
Record vfork_s : Type := mk_vfork_s {
  r4 : Z; r5 : Z; r6 : Z; r7 : Z; r8 : Z; r9 : Z; r10 : Z;
  fp : Z; sp : Z; lr : Z
}.

(** struct xcpt_syscall_s: one system-call return record.  Its declaration
    is in arch/irq.h; the fields are the ones up_vfork names.  Which of
    [cpsr] and [excreturn] a platform has follows the conditional
    compilation of up_vfork (see [syscall_arch]). *)
Record xcpt_syscall_s : Type := mk_syscall {
  sysreturn : Z; cpsr : Z; excreturn : Z
}.

(** struct xcptcontext: regs[XCPTCONTEXT_REGS], nsyscalls and
    syscall[CONFIG_SYS_NNEST]. *)
Record xcptcontext : Type := mk_xcp {
  regs : list Z;
  nsyscalls : Z;
  syscall : list xcpt_syscall_s
}.

(** struct tcb_s, the fields up_vfork touches. *)
Record tcb_s : Type := mk_tcb {
  pid : Z;
  flags : Z;
  stack_alloc_ptr : Z;
  adj_stack_size : Z;
  adj_stack_ptr : Z;
  xcp : xcptcontext
}.

(** struct task_tcb_s: the common part is its member [cmn]. *)
Record task_tcb_s : Type := mk_task_tcb { cmn : tcb_s }.

Definition set_regs (rs : list Z) (x : xcptcontext) : xcptcontext :=
  mk_xcp rs (nsyscalls x) (syscall x).

Definition set_nsyscalls (n : Z) (x : xcptcontext) : xcptcontext :=
  mk_xcp (regs x) n (syscall x).

Definition set_syscall (s : list xcpt_syscall_s) (x : xcptcontext) : xcptcontext :=
  mk_xcp (regs x) (nsyscalls x) s.

Definition set_xcp (x : xcptcontext) (t : tcb_s) : tcb_s :=
  mk_tcb (pid t) (flags t) (stack_alloc_ptr t) (adj_stack_size t)
         (adj_stack_ptr t) x.

Definition child_with_xcp (x : xcptcontext) (c : task_tcb_s) : task_tcb_s :=
  mk_task_tcb (set_xcp x (cmn c)).

(** ** Build configuration

    [syscall_arch] names the branch of the conditional at lines 243-261 that
    is compiled (a platform matching none of them does not build:
    "#error Missing logic"). *)
Inductive syscall_arch : Type :=
| CortexA_kernel     (* CORTEXA5 / CORTEXA8 with CONFIG_BUILD_KERNEL *)
| CortexR_protected  (* CORTEXR4 / CORTEXR4F with CONFIG_BUILD_PROTECTED *)
| CortexR_flat       (* CORTEXR4 / CORTEXR4F without CONFIG_BUILD_PROTECTED *)
| CortexM.           (* CORTEXM0 / M3 / M4 / M7 / M33 / M55 *)

(** The constants and switches up_vfork.c takes from headers that are not
    part of this file: the stack alignment, the task-type mask, the indices
    of the register save area, and the configuration switches.  [REG_R0] is
    the slot of the return-value register of the comment at lines 214-219;
    up_vfork never uses it as an index. *)
Record config : Type := mk_config {
  STACK_ALIGNMENT : Z;
  TCB_FLAG_TTYPE_MASK : Z;
  REG_R0 : nat;
  REG_R4 : nat; REG_R5 : nat; REG_R6 : nat; REG_R7 : nat;
  REG_R8 : nat; REG_R9 : nat; REG_R10 : nat;
  REG_FP : nat; REG_SP : nat;
  CONFIG_DEBUG : bool;               (* DEBUGASSERT is compiled in *)
  CONFIG_DEBUG_MM_HEAPINFO : bool;
  CONFIG_LIB_SYSCALL : option syscall_arch
}.

(** Modelled from the spec: the header defining OK and ERROR is not among
    the sources; "every failure path returns a single negative/sentinel
    error result", and the allocator's status is compared with OK. *)
Definition OK : Z := 0.
Definition ERROR : Z := -1.

(** ** Kernel state seen by up_vfork *)

(** Calls that leave up_vfork, in program order.  A call that is handed the
    child TCB records the TCB it was handed. *)
Inductive event : Type :=
| Ev_vforksetup (entry : Z)
| Ev_create_stack (size ttype : Z)
| Ev_heapinfo_exclude_stacksize (ptr : Z)
| Ev_heapinfo_set_stack_node (ptr pid : Z)
| Ev_memcpy (dst src n : Z)
| Ev_vforkstart (child : task_tcb_s)
| Ev_scheduled (child : task_tcb_s) (child_pid : Z)
| Ev_vforkabort (child : task_tcb_s) (errcode : Z).

(** The TCBs are records kept beside the byte-addressed memory, on which the
    memcpy of line 200 acts.  Where the parent's TCB and the captured context
    lie in that memory is a parameter of the property that needs it
    ([writes_confined_to_child]); the records stand for their bytes on the
    runs whose copy stays clear of them. *)
Record kernel : Type := mk_kernel {
  parent_tcb : tcb_s;              (* the TCB this_task() returns *)
  child_tcb : option task_tcb_s;   (* the child TCB, once set up *)
  memory : Z -> Z;                 (* byte-addressed memory *)
  calls : list event
}.

Definition this_task (k : kernel) : tcb_s := parent_tcb k.

Definition log (e : event) (k : kernel) : kernel :=
  mk_kernel (parent_tcb k) (child_tcb k) (memory k) (calls k ++ [e]).

Definition store_child (c : task_tcb_s) (k : kernel) : kernel :=
  mk_kernel (parent_tcb k) (Some c) (memory k) (calls k).

Definition set_memory (m : Z -> Z) (k : kernel) : kernel :=
  mk_kernel (parent_tcb k) (child_tcb k) m (calls k).

(** memcpy(dst, src, n): the n bytes at dst become the n bytes that were at
    src.  C defines it for regions that do not overlap; every byte outside
    [dst, dst+n) keeps its value. *)
Definition memcpy_bytes (dst src n : Z) (m : Z -> Z) : Z -> Z :=
  fun a => if (dst <=? a) && (a <? dst + n) then m (src + (a - dst)) else m a.

Definition memcpy (dst src n : Z) (k : kernel) : kernel :=
  log (Ev_memcpy dst src n) (set_memory (memcpy_bytes dst src n (memory k)) k).

(** ** The task life-cycle manager and the stack allocator

    task_vforksetup, up_create_stack and the scheduler hook-up behind
    task_vforkstart are defined elsewhere in the kernel.  Their results are
    inputs of the model: a set-up that returns NULL or a fresh child TCB, an
    allocator that returns a status and the child TCB with its stack fields
    filled in, and an activation that yields the child's pid or an error
    code. *)
Record collaborators : Type := mk_collaborators {
  task_vforksetup : Z -> option task_tcb_s;
  up_create_stack : task_tcb_s -> Z -> Z -> Z * task_tcb_s;
  task_activate : task_tcb_s -> Z + Z
}.

(** Modelled from the spec: task_vforkabort is not among the sources.
    "abort(ChildHandle, reasonCode) -> void": the TCB it is handed and that
    TCB's stack are released; the call is recorded in the log with the TCB
    and the reason code it was handed. *)
Definition task_vforkabort (child : task_tcb_s) (errcode : Z) (k : kernel)
  : kernel :=
  log (Ev_vforkabort child errcode) k.

(** Modelled from the spec: task_vforkstart is not among the sources.
    "start(ChildHandle) -> TaskId | Error (internally performs
    cleanup-and-error-translate on its own failure)"; the comment at lines
    268-270 says the same: on a failure task_vforkstart discards the TCB by
    calling task_vforkabort. *)
Definition task_vforkstart (env : collaborators) (child : task_tcb_s)
  (k : kernel) : Z * kernel :=
  let k := log (Ev_vforkstart child) k in
  match task_activate env child with
  | inl child_pid => (child_pid, log (Ev_scheduled child child_pid) k)
  | inr errcode => (ERROR, task_vforkabort child errcode k)
  end.

(** ** up_vfork *)

(** How a call ends: it returns a pid_t, or a DEBUGASSERT fails and the
    call never returns. *)
Inductive outcome : Type :=
| Returned (ret : Z) (k : kernel)
| AssertionFailed (k : kernel).

(** A sequence of assignments regs[i] = v, performed left to right. *)
Definition store_all (ws : list (nat * Z)) (rs : list Z) : list Z :=
  foldl (fun acc w => <[fst w := snd w]> acc) rs ws.

(** Lines 221-229. *)
Definition reg_assignments (cfg : config) (context : vfork_s)
  (newfp newsp : Z) : list (nat * Z) :=
  [ (REG_R4 cfg, r4 context); (REG_R5 cfg, r5 context);
    (REG_R6 cfg, r6 context); (REG_R7 cfg, r7 context);
    (REG_R8 cfg, r8 context); (REG_R9 cfg, r9 context);
    (REG_R10 cfg, r10 context);
    (REG_FP cfg, newfp); (REG_SP cfg, newsp) ].

(** Line 162. *)
Definition parent_stacksize (cfg : config) (parent : tcb_s) : Z :=
  wrap (adj_stack_size parent + STACK_ALIGNMENT cfg - 1).

(** Line 188. *)
Definition stack_utilization (parent : tcb_s) (context : vfork_s) : Z :=
  sub32 (adj_stack_ptr parent) (sp context).

(** Line 199. *)
Definition new_sp (parent : tcb_s) (context : vfork_s) (child : task_tcb_s)
  : Z :=
  sub32 (adj_stack_ptr (cmn child)) (stack_utilization parent context).

(** The test of line 204. *)
Definition fp_in_window (cfg : config) (parent : tcb_s) (context : vfork_s)
  : bool :=
  (fp context <=? adj_stack_ptr parent)
  && (sub32 (adj_stack_ptr parent) (parent_stacksize cfg parent) <=? fp context).

(** Lines 204-209. *)
Definition new_fp (cfg : config) (parent : tcb_s) (context : vfork_s)
  (child : task_tcb_s) : Z :=
  if fp_in_window cfg parent context then
    let frameutil := sub32 (adj_stack_ptr parent) (fp context) in
    sub32 (adj_stack_ptr (cmn child)) frameutil
  else fp context.

(** The body of the loop at lines 239-261 for one record. *)
Definition copy_syscall (arch : syscall_arch) (src dst : xcpt_syscall_s)
  : xcpt_syscall_s :=
  let dst := mk_syscall (sysreturn src) (cpsr dst) (excreturn dst) in
  match arch with
  | CortexA_kernel | CortexR_protected =>
      mk_syscall (sysreturn dst) (cpsr src) (excreturn dst)
  | CortexR_flat => dst
  | CortexM => mk_syscall (sysreturn dst) (cpsr dst) (excreturn src)
  end.

(** for (index = ...; index < nsyscalls; index++), with [remaining] the
    number of iterations left.  Both arrays have CONFIG_SYS_NNEST entries; an
    index past the end of either is outside what C defines and is left
    without effect here. *)
Fixpoint syscall_loop (arch : syscall_arch) (remaining : nat) (index : nat)
  (psys csys : list xcpt_syscall_s) : list xcpt_syscall_s :=
  match remaining with
  | O => csys
  | S remaining' =>
      let csys' :=
        match psys !! index, csys !! index with
        | Some src, Some dst => <[index := copy_syscall arch src dst]> csys
        | _, _ => csys
        end in
      syscall_loop arch remaining' (S index) psys csys'
  end.

(** Lines 231-266. *)
Definition replicate_syscalls (cfg : config) (parent : tcb_s)
  (x : xcptcontext) : xcptcontext :=
  match CONFIG_LIB_SYSCALL cfg with
  | None => x
  | Some arch =>
      if 0 <? nsyscalls (xcp parent) then
        let s := syscall_loop arch (Z.to_nat (nsyscalls (xcp parent))) 0
                   (syscall (xcp parent)) (syscall x) in
        set_nsyscalls (nsyscalls (xcp parent)) (set_syscall s x)
      else x
  end.

(** Lines 221-266: what up_vfork writes into the child's saved context. *)
Definition transfer_context (cfg : config) (parent : tcb_s)
  (context : vfork_s) (child : task_tcb_s) : task_tcb_s :=
  let newsp := new_sp parent context child in
  let newfp := new_fp cfg parent context child in
  let x := xcp (cmn child) in
  let x := set_regs (store_all (reg_assignments cfg context newfp newsp)
                               (regs x)) x in
  child_with_xcp (replicate_syscalls cfg parent x) child.

(** Lines 172-179. *)
Definition heapinfo (cfg : config) (child : task_tcb_s) (k : kernel) : kernel :=
  if CONFIG_DEBUG_MM_HEAPINFO cfg then
    log (Ev_heapinfo_set_stack_node (stack_alloc_ptr (cmn child))
                                    (pid (cmn child)))
      (log (Ev_heapinfo_exclude_stacksize (stack_alloc_ptr (cmn child))) k)
  else k.

(** pid_t up_vfork(const struct vfork_s *context), lines 132-273.  The
    svdbg/sdbg diagnostics have no effect on the state and are left out. *)
Definition up_vfork (cfg : config) (env : collaborators) (context : vfork_s)
  (k : kernel) : outcome :=
  let parent := this_task k in
  let entry := Z.land (lr context) (Z.lnot 1) in
  let k := log (Ev_vforksetup entry) k in
  match task_vforksetup env entry with
  | None => Returned ERROR k
  | Some child =>
      let k := store_child child k in
      let stacksize := parent_stacksize cfg parent in
      let ttype := Z.land (flags parent) (TCB_FLAG_TTYPE_MASK cfg) in
      let '(ret, child) := up_create_stack env child stacksize ttype in
      let k := store_child child (log (Ev_create_stack stacksize ttype) k) in
      if negb (ret =? OK) then
        Returned ERROR (task_vforkabort child (- ret) k)
      else
        let k := heapinfo cfg child k in
        if CONFIG_DEBUG cfg && negb (sp context <? adj_stack_ptr parent) then
          AssertionFailed k
        else
          let stackutil := stack_utilization parent context in
          let newsp := new_sp parent context child in
          let k := memcpy newsp (sp context) stackutil k in
          let child := transfer_context cfg parent context child in
          let k := store_child child k in
          let '(ret, k) := task_vforkstart env child k in
          Returned ret k
  end.

(** ** Terms used by the properties *)

Definition outcome_kernel (o : outcome) : kernel :=
  match o with
  | Returned _ k => k
  | AssertionFailed k => k
  end.

(** The entry point handed to task_vforksetup (line 149). *)
Definition entry_point (context : vfork_s) : Z :=
  Z.land (lr context) (Z.lnot 1).

(** The task type handed to up_create_stack (line 166). *)
Definition parent_ttype (cfg : config) (parent : tcb_s) : Z :=
  Z.land (flags parent) (TCB_FLAG_TTYPE_MASK cfg).

(** The call gets as far as the context transfer: the set-up returned the
    child [c0], the allocator returned OK and left the child as [c1], and
    the DEBUGASSERT of line 187, where compiled in, holds. *)
Definition reaches_transfer (cfg : config) (env : collaborators)
  (context : vfork_s) (k : kernel) (c0 c1 : task_tcb_s) : Prop :=
  task_vforksetup env (entry_point context) = Some c0
  /\ up_create_stack env c0 (parent_stacksize cfg (parent_tcb k))
       (parent_ttype cfg (parent_tcb k)) = (OK, c1)
  /\ (CONFIG_DEBUG cfg = true -> sp context < adj_stack_ptr (parent_tcb k)).

(** Modelled from the spec: a stack region is "a contiguous byte range
    [base, base+size)" and the adjusted stack pointer is its top (scenario:
    child stack [0x3000,0x4000), new stack pointer 0x4000 - 0x100). *)
Definition stack_base (t : tcb_s) : Z := adj_stack_ptr t - adj_stack_size t.

Definition in_stack_region (t : tcb_s) (a : Z) : Prop :=
  stack_base t <= a < stack_base t + adj_stack_size t.

(** Modelled from the spec: up_create_stack is not among the sources.  The
    Stack Allocator "allocates a stack region and reports its usable bounds",
    the child's stack being "sized to the effective stack size" [req]; by the
    comment at lines 157-160 alignment may leave the adjusted size smaller
    than the size requested, by less than one alignment unit.  The region
    reported lies in the 32-bit address space. *)
Definition stack_allocated (cfg : config) (req : Z) (t : tcb_s) : Prop :=
  0 <= stack_base t
  /\ adj_stack_ptr t < modulus
  /\ req - (STACK_ALIGNMENT cfg - 1) <= adj_stack_size t <= req.

(** The parent TCB describes a stack inside the address space and the
    padding of line 162 does not overflow a size_t. *)
Definition parent_stack_ok (cfg : config) (parent : tcb_s) : Prop :=
  1 <= STACK_ALIGNMENT cfg
  /\ 0 <= adj_stack_size parent
  /\ 0 <= stack_base parent
  /\ adj_stack_ptr parent < modulus
  /\ adj_stack_size parent + STACK_ALIGNMENT cfg - 1 < modulus.

(** Slots of regs[] that lines 221-229 assign. *)
Definition written_slots (cfg : config) : list nat :=
  [ REG_R4 cfg; REG_R5 cfg; REG_R6 cfg; REG_R7 cfg; REG_R8 cfg; REG_R9 cfg;
    REG_R10 cfg; REG_FP cfg; REG_SP cfg ].

(** Number of times the child was released (task_vforkabort) and handed to
    the scheduler in a log. *)
Definition is_abort (e : event) : bool :=
  match e with Ev_vforkabort _ _ => true | _ => false end.

Definition is_scheduled (e : event) : bool :=
  match e with Ev_scheduled _ _ => true | _ => false end.

Fixpoint count_events (f : event -> bool) (l : list event) : nat :=
  match l with
  | [] => O
  | e :: l' => ((if f e then 1 else 0) + count_events f l')%nat
  end.

Definition released (l : list event) : nat := count_events is_abort l.

Definition scheduled (l : list event) : nat := count_events is_scheduled l.

(** The TCBs task_vforkabort was called on in a log, and the TCBs handed to
    the scheduler, in order. *)
Definition released_tcbs (l : list event) : list task_tcb_s :=
  omap (fun e => match e with
                 | Ev_vforkabort c _ => Some c
                 | _ => None
                 end) l.

Definition scheduled_tcbs (l : list event) : list task_tcb_s :=
  omap (fun e => match e with
                 | Ev_scheduled c _ => Some c
                 | _ => None
                 end) l.

(** The (destination, source, count) of each memcpy in a log. *)
Definition copies (l : list event) : list (Z * Z * Z) :=
  omap (fun e => match e with
                 | Ev_memcpy d s n => Some (d, s, n)
                 | _ => None
                 end) l.

(** The requests made to the stack allocator in a log. *)
Definition stack_requests (l : list event) : list Z :=
  omap (fun e => match e with
                 | Ev_create_stack size _ => Some size
                 | _ => None
                 end) l.

(** The stack size of the claim "the configured size rounded up to the
    platform's stack-alignment granularity", written from those words: the
    least multiple of [a] that is not below [x]. *)
Definition round_up_to_alignment (a x : Z) : Z := ((x + a - 1) / a) * a.

(** Which fields a system-call return record has on a platform: sysreturn
    always, cpsr or excreturn where the branch compiled for the platform
    names it. *)
Definition has_cpsr (arch : syscall_arch) : bool :=
  match arch with
  | CortexA_kernel | CortexR_protected => true
  | _ => false
  end.

Definition has_excreturn (arch : syscall_arch) : bool :=
  match arch with
  | CortexM => true
  | _ => false
  end.

(** Two records agree on every field the platform's record has. *)
Definition same_syscall_record (arch : syscall_arch) (a b : xcpt_syscall_s)
  : Prop :=
  sysreturn a = sysreturn b
  /\ (has_cpsr arch = true -> cpsr a = cpsr b)
  /\ (has_excreturn arch = true -> excreturn a = excreturn b).

(** ** A concrete configuration and concrete runs

    A register save area of 18 words laid out in the ARMv7-M manner: the
    stack pointer in slot 0, r4-r11 in slots 2-9, r0 in slot 10, and r7 as
    the frame pointer; 8-byte stack alignment; two system-call nesting
    levels. *)
Definition sample_config (debug : bool) : config :=
  mk_config 8 3 10%nat 2%nat 3%nat 4%nat 5%nat 6%nat 7%nat 8%nat 5%nat 0%nat
            debug false (Some CortexM).

Definition zero_syscall : xcpt_syscall_s := mk_syscall 0 0 0.

(** The child TCB as generic set-up leaves it: every saved register zero, no
    pending system call, no stack yet. *)
Definition fresh_child : task_tcb_s :=
  mk_task_tcb (mk_tcb 7 0 0 0 0
    (mk_xcp (replicate 18 0) 0 [zero_syscall; zero_syscall])).

(** A parent whose stack is [top - size, top), with two pending system
    calls. *)
Definition sample_parent (top size : Z) : tcb_s :=
  mk_tcb 3 1 (top - size) size top
    (mk_xcp (replicate 18 0) 2
            [mk_syscall 0x8001 0 0xFFFFFFFD; mk_syscall 0x8101 0 0xFFFFFFF9]).

(** A set-up that succeeds with [fresh_child] (or fails), an allocator that
    places the child's stack at [base] and aligns the requested size down by
    the 7 bytes of padding (or fails with [status]), and an activation with
    a fixed result. *)
Definition sample_env (setup_ok : bool) (status base : Z) (activation : Z + Z)
  : collaborators :=
  mk_collaborators
    (fun _ => if setup_ok then Some fresh_child else None)
    (fun c size _ =>
       if status =? OK then
         (OK, mk_task_tcb (mk_tcb (pid (cmn c)) (flags (cmn c)) base
                                  (size - 7) (base + (size - 7)) (xcp (cmn c))))
       else (status, c))
    (fun _ => activation).

(** Memory in which the byte at address a holds bits 8-15 of a. *)
Definition sample_memory : Z -> Z := fun a => (a / 256) mod 256.

Definition sample_kernel (top size : Z) : kernel :=
  mk_kernel (sample_parent top size) None sample_memory [].

Definition sample_context (fp_ sp_ : Z) : vfork_s :=
  mk_vfork_s 0x44 0x55 0x66 0x77 0x88 0x99 0xAA fp_ sp_ 0x08000101.

(** The kernel state once the allocator has returned (line 166). *)
Definition kernel_after_create_stack (cfg : config) (context : vfork_s)
  (k : kernel) (c0 c1 : task_tcb_s) : kernel :=
  store_child c1
    (log (Ev_create_stack (parent_stacksize cfg (parent_tcb k))
                          (parent_ttype cfg (parent_tcb k)))
       (store_child c0 (log (Ev_vforksetup (entry_point context)) k))).

(** The kernel state task_vforkstart is entered with on the success path. *)
Definition kernel_before_start (cfg : config) (context : vfork_s)
  (k : kernel) (c0 c1 : task_tcb_s) : kernel :=
  let parent := parent_tcb k in
  let k := heapinfo cfg c1 (kernel_after_create_stack cfg context k c0 c1) in
  let k := memcpy (new_sp parent context c1) (sp context)
                  (stack_utilization parent context) k in
  store_child (transfer_context cfg parent context c1) k.

(** Lines 172-179 as log entries. *)
Definition heapinfo_events (cfg : config) (child : task_tcb_s) : list event :=
  if CONFIG_DEBUG_MM_HEAPINFO cfg then
    [ Ev_heapinfo_exclude_stacksize (stack_alloc_ptr (cmn child));
      Ev_heapinfo_set_stack_node (stack_alloc_ptr (cmn child)) (pid (cmn child)) ]
  else [].

(** What task_vforkstart adds to the log. *)
Definition start_events (env : collaborators) (child : task_tcb_s)
  : list event :=
  Ev_vforkstart child ::
    match task_activate env child with
    | inl child_pid => [Ev_scheduled child child_pid]
    | inr errcode => [Ev_vforkabort child errcode]
    end.

(** The log entries of a call that reaches task_vforkstart. *)
Definition transfer_events (cfg : config) (env : collaborators)
  (context : vfork_s) (k : kernel) (c1 : task_tcb_s) : list event :=
  let parent := parent_tcb k in
  [ Ev_vforksetup (entry_point context);
    Ev_create_stack (parent_stacksize cfg parent) (parent_ttype cfg parent) ]
  ++ heapinfo_events cfg c1
  ++ [ Ev_memcpy (new_sp parent context c1) (sp context)
                 (stack_utilization parent context) ]
  ++ start_events env (transfer_context cfg parent context c1).

(** P3 as the specification words it: childFp - childTop equals
    parentTop - capturedFp. *)
Definition fp_offset_as_stated (childFp childTop parentTop capturedFp : Z)
  : Prop :=
  childFp - childTop = parentTop - capturedFp.

(** The ways a call can run to a return: the set-up fails; the allocator
    fails with status [ret]; task_vforkstart fails with [errcode]; or the
    child is started with [child_pid]. *)
Inductive path : Type :=
| SetupFails
| StackFails (c0 : task_tcb_s) (ret : Z) (c1 : task_tcb_s)
| StartFails (c0 c1 : task_tcb_s) (errcode : Z)
| Started (c0 c1 : task_tcb_s) (child_pid : Z).

Definition takes_path (cfg : config) (env : collaborators)
  (context : vfork_s) (k : kernel) (p : path) : Prop :=
  match p with
  | SetupFails => task_vforksetup env (entry_point context) = None
  | StackFails c0 ret c1 =>
      task_vforksetup env (entry_point context) = Some c0
      /\ up_create_stack env c0 (parent_stacksize cfg (parent_tcb k))
           (parent_ttype cfg (parent_tcb k)) = (ret, c1)
      /\ ret <> OK
  | StartFails c0 c1 errcode =>
      reaches_transfer cfg env context k c0 c1
      /\ task_activate env (transfer_context cfg (parent_tcb k) context c1)
         = inr errcode
  | Started c0 c1 child_pid =>
      reaches_transfer cfg env context k c0 c1
      /\ task_activate env (transfer_context cfg (parent_tcb k) context c1)
         = inl child_pid
  end.

(** The value a call returned, if it returned. *)
Definition return_value (o : outcome) : option Z :=
  match o with
  | Returned ret _ => Some ret
  | AssertionFailed _ => None
  end.

(** The child TCB at the end of a call. *)
Definition final_child (o : outcome) : option task_tcb_s :=
  child_tcb (outcome_kernel o).

(** The specification's scenario: parent stack [0x1000,0x2000), captured
    sp 0x1F00 and fp 0x1F80, child stack [0x3000,0x4000), a build with
    CONFIG_DEBUG. *)
Definition scenario_run : outcome :=
  up_vfork (sample_config true) (sample_env true OK 0x3000 (inl 9))
           (sample_context 0x1F80 0x1F00) (sample_kernel 0x2000 0x1000).

(** The child TCB the sample allocator returns for the scenario. *)
Definition scenario_child : task_tcb_s :=
  mk_task_tcb (mk_tcb 7 0 0x3000 0x1000 0x4000
                 (mk_xcp (replicate 18 0) 0 [zero_syscall; zero_syscall])).

(** The same stacks with the captured stack pointer 0x0800, under the
    parent's stack. *)
Definition low_sp_run : outcome :=
  up_vfork (sample_config true) (sample_env true OK 0x3000 (inl 9))
           (sample_context 0x1F80 0x0800) (sample_kernel 0x2000 0x1000).

(** The same stacks with the captured stack pointer 0x2004, above the
    parent's top, in a build with or without CONFIG_DEBUG and with a set-up
    that succeeds or fails. *)
Definition high_sp_run (debug setup_ok : bool) : outcome :=
  up_vfork (sample_config debug) (sample_env setup_ok OK 0x3000 (inl 9))
           (sample_context 0x1F80 0x2004) (sample_kernel 0x2000 0x1000).

(** Parent stack [0x3000,0x4000), child stack [0x1000,0x2000) below it, and
    a captured stack pointer 0x2800 that is under the parent's stack. *)
Definition stray_copy_run : outcome :=
  up_vfork (sample_config true) (sample_env true OK 0x1000 (inl 9))
           (sample_context 0x1F80 0x2800) (sample_kernel 0x4000 0x1000).

(** Parent stack [0x3000,0x4000), child stack [0x5000,0x6000) above it, and
    a captured stack pointer 0x0800 far under the parent's stack. *)
Definition overrun_run : outcome :=
  up_vfork (sample_config true) (sample_env true OK 0x5000 (inl 9))
           (sample_context 0x1F80 0x0800) (sample_kernel 0x4000 0x1000).

(** ** Further terms: the register assignments, the heap accounting calls
    and more concrete runs *)

(** The value the last assignment to slot [i] in [ws] stores, if any
    assignment names [i]. *)
Fixpoint last_assignment (ws : list (nat * Z)) (i : nat) : option Z :=
  match ws with
  | [] => None
  | w :: ws' =>
      match last_assignment ws' i with
      | Some v => Some v
      | None => if Nat.eqb (fst w) i then Some (snd w) else None
      end
  end.

(** The heap accounting calls (lines 176 and 178) in a log. *)
Definition heapinfo_log (l : list event) : list event :=
  omap (fun e => match e with
                 | Ev_heapinfo_exclude_stacksize _ => Some e
                 | Ev_heapinfo_set_stack_node _ _ => Some e
                 | _ => None
                 end) l.

(** Whether a log has a call to task_vforkstart. *)
Definition is_start (e : event) : bool :=
  match e with Ev_vforkstart _ => true | _ => false end.

(** A save area laid out in the ARM-mode manner: r0-r15 in slots 0-15, r11
    as the frame pointer and r13 as the stack pointer, so that the nine slots
    up_vfork assigns are all different. *)
Definition sample_config_arm : config :=
  mk_config 8 3 0%nat 4%nat 5%nat 6%nat 7%nat 8%nat 9%nat 10%nat 11%nat 13%nat
            true true (Some CortexA_kernel).


(** Where an object lies in memory: its address and its size in bytes, and
    the addresses it occupies. *)
Definition occupies (obj : Z * Z) (a : Z) : Prop :=
  fst obj <= a < fst obj + snd obj.

(** The object lies entirely outside the stack region of [t]. *)
Definition apart_from_stack (obj : Z * Z) (t : tcb_s) : Prop :=
  fst obj + snd obj <= stack_base t
  \/ stack_base t + adj_stack_size t <= fst obj.


(** ** Word arithmetic *)

Lemma modulus_pos : 0 < modulus.
Proof. unfold modulus. lia. Qed.

Lemma wrap_small z : 0 <= z < modulus -> wrap z = z.
Proof. intros H. unfold wrap. apply Z.mod_small. exact H. Qed.

Lemma wrap_range z : 0 <= wrap z < modulus.
Proof. unfold wrap. apply Z.mod_pos_bound. exact modulus_pos. Qed.

Lemma sub32_exact a b : 0 <= a - b < modulus -> sub32 a b = a - b.
Proof. intros H. unfold sub32. now apply wrap_small. Qed.

Lemma sub32_range a b : 0 <= sub32 a b < modulus.
Proof. apply wrap_range. Qed.

(** a - (a - b) = b in 32-bit arithmetic, whatever wraps in between. *)
Lemma sub32_sub32 a b : 0 <= b < modulus -> sub32 a (sub32 a b) = b.
Proof.
  intros Hb. unfold sub32, wrap.
  rewrite Zminus_mod_idemp_r.
  replace (a - (a - b)) with b by lia.
  now apply Z.mod_small.
Qed.

(** ** The register save area *)

Lemma store_all_app ws1 ws2 (rs : list Z) :
  store_all (ws1 ++ ws2) rs = store_all ws2 (store_all ws1 rs).
Proof. unfold store_all. apply foldl_app. Qed.

Lemma length_store_all ws (rs : list Z) :
  length (store_all ws rs) = length rs.
Proof.
  revert rs. induction ws as [|w ws IH]; intros rs; simpl.
  - reflexivity.
  - unfold store_all in *. simpl. rewrite IH. apply length_insert.
Qed.

(** A slot that no assignment names keeps its value. *)
Lemma store_all_frame ws (rs : list Z) (i : nat) :
  ~ In i (map fst ws) -> store_all ws rs !! i = rs !! i.
Proof.
  revert rs. induction ws as [|w ws IH]; intros rs Hi.
  - reflexivity.
  - unfold store_all in *. simpl in *.
    rewrite IH by tauto.
    apply list_lookup_insert_ne. tauto.
Qed.

(** The last assignment to a slot decides its value. *)
Lemma store_all_last ws (rs : list Z) (i : nat) (v : Z) ws' :
  (i < length rs)%nat -> ~ In i (map fst ws') ->
  store_all (ws ++ (i, v) :: ws') rs !! i = Some v.
Proof.
  intros Hlen Hi.
  rewrite store_all_app.
  change ((i, v) :: ws') with ([(i, v)] ++ ws').
  rewrite store_all_app, store_all_frame by exact Hi.
  unfold store_all at 1. simpl.
  apply list_lookup_insert_eq. now rewrite length_store_all.
Qed.

Lemma saved_sp cfg context newfp newsp (rs : list Z) :
  (REG_SP cfg < length rs)%nat ->
  store_all (reg_assignments cfg context newfp newsp) rs !! REG_SP cfg
  = Some newsp.
Proof.
  intros Hlen. unfold reg_assignments.
  apply (store_all_last
           [ (REG_R4 cfg, r4 context); (REG_R5 cfg, r5 context);
             (REG_R6 cfg, r6 context); (REG_R7 cfg, r7 context);
             (REG_R8 cfg, r8 context); (REG_R9 cfg, r9 context);
             (REG_R10 cfg, r10 context); (REG_FP cfg, newfp) ]
           rs (REG_SP cfg) newsp []); [exact Hlen | simpl; tauto].
Qed.

Lemma saved_fp cfg context newfp newsp (rs : list Z) :
  (REG_FP cfg < length rs)%nat -> REG_FP cfg <> REG_SP cfg ->
  store_all (reg_assignments cfg context newfp newsp) rs !! REG_FP cfg
  = Some newfp.
Proof.
  intros Hlen Hne. unfold reg_assignments.
  apply (store_all_last
           [ (REG_R4 cfg, r4 context); (REG_R5 cfg, r5 context);
             (REG_R6 cfg, r6 context); (REG_R7 cfg, r7 context);
             (REG_R8 cfg, r8 context); (REG_R9 cfg, r9 context);
             (REG_R10 cfg, r10 context) ]
           rs (REG_FP cfg) newfp [(REG_SP cfg, newsp)]);
    [exact Hlen | simpl; intros [H|[]]; congruence].
Qed.

Lemma reg_assignments_slots cfg context newfp newsp :
  map fst (reg_assignments cfg context newfp newsp) = written_slots cfg.
Proof. reflexivity. Qed.

(** ** The path through up_vfork *)

(** replicate_syscalls leaves the register save area alone. *)
Lemma replicate_syscalls_regs cfg parent x :
  regs (replicate_syscalls cfg parent x) = regs x.
Proof.
  unfold replicate_syscalls.
  destruct (CONFIG_LIB_SYSCALL cfg); [|reflexivity].
  destruct (0 <? nsyscalls (xcp parent)); reflexivity.
Qed.

Lemma transfer_context_regs cfg parent context child :
  regs (xcp (cmn (transfer_context cfg parent context child)))
  = store_all (reg_assignments cfg context
                 (new_fp cfg parent context child)
                 (new_sp parent context child))
              (regs (xcp (cmn child))).
Proof. unfold transfer_context. simpl. now rewrite replicate_syscalls_regs. Qed.

Lemma transfer_context_stack cfg parent context child :
  adj_stack_ptr (cmn (transfer_context cfg parent context child))
  = adj_stack_ptr (cmn child)
  /\ adj_stack_size (cmn (transfer_context cfg parent context child))
     = adj_stack_size (cmn child).
Proof. split; reflexivity. Qed.

Lemma up_vfork_reaches_start cfg env context k c0 c1 :
  reaches_transfer cfg env context k c0 c1 ->
  up_vfork cfg env context k
  = Returned
      (fst (task_vforkstart env (transfer_context cfg (parent_tcb k) context c1)
              (kernel_before_start cfg context k c0 c1)))
      (snd (task_vforkstart env (transfer_context cfg (parent_tcb k) context c1)
              (kernel_before_start cfg context k c0 c1))).
Proof.
  intros (Hsetup & Hstack & Hassert).
  unfold up_vfork, this_task.
  fold (entry_point context). rewrite Hsetup.
  fold (parent_ttype cfg (parent_tcb k)).
  cbn [parent_tcb log store_child].
  rewrite Hstack. cbn [negb Z.eqb OK].
  replace (OK =? OK) with true by reflexivity. cbn [negb].
  assert (Hgo : CONFIG_DEBUG cfg && negb (sp context <? adj_stack_ptr (parent_tcb k)) = false).
  { destruct (CONFIG_DEBUG cfg); [|reflexivity].
    simpl. apply negb_false_iff, Z.ltb_lt, Hassert. reflexivity. }
  rewrite Hgo.
  unfold kernel_before_start, kernel_after_create_stack.
  destruct (task_vforkstart _ _ _) as [ret k'] eqn:E.
  reflexivity.
Qed.

(** task_vforkstart only appends to the log. *)
Lemma task_vforkstart_frame env c k :
  parent_tcb (snd (task_vforkstart env c k)) = parent_tcb k
  /\ child_tcb (snd (task_vforkstart env c k)) = child_tcb k
  /\ memory (snd (task_vforkstart env c k)) = memory k
  /\ calls (snd (task_vforkstart env c k))
     = calls k ++ Ev_vforkstart c ::
         match task_activate env c with
         | inl child_pid => [Ev_scheduled c child_pid]
         | inr errcode => [Ev_vforkabort c errcode]
         end.
Proof.
  unfold task_vforkstart, task_vforkabort.
  destruct (task_activate env c); cbn; rewrite <- app_assoc; auto.
Qed.

Lemma task_vforkstart_calls env c k :
  calls (snd (task_vforkstart env c k)) = calls k ++ start_events env c.
Proof.
  unfold task_vforkstart, task_vforkabort, start_events.
  destruct (task_activate env c); cbn; rewrite <- app_assoc; reflexivity.
Qed.

Lemma task_vforkstart_ret env c k :
  fst (task_vforkstart env c k)
  = match task_activate env c with inl child_pid => child_pid | inr _ => ERROR end.
Proof. unfold task_vforkstart. destruct (task_activate env c); reflexivity. Qed.

Lemma heapinfo_calls cfg c k :
  calls (heapinfo cfg c k) = calls k ++ heapinfo_events cfg c.
Proof.
  unfold heapinfo, heapinfo_events.
  destruct (CONFIG_DEBUG_MM_HEAPINFO cfg); cbn.
  - rewrite <- app_assoc. reflexivity.
  - now rewrite app_nil_r.
Qed.

Lemma heapinfo_state cfg c k :
  parent_tcb (heapinfo cfg c k) = parent_tcb k
  /\ child_tcb (heapinfo cfg c k) = child_tcb k
  /\ memory (heapinfo cfg c k) = memory k.
Proof. unfold heapinfo. destruct (CONFIG_DEBUG_MM_HEAPINFO cfg); auto. Qed.

(** A call that reaches the transfer returns what task_vforkstart returns;
    the parent TCB is as before, the child TCB is the transferred one, memory
    differs by the one memcpy, and the log grew by [transfer_events]. *)
Lemma up_vfork_success cfg env context k c0 c1 :
  reaches_transfer cfg env context k c0 c1 ->
  exists ret k',
    up_vfork cfg env context k = Returned ret k'
    /\ ret = match task_activate env (transfer_context cfg (parent_tcb k) context c1) with
             | inl child_pid => child_pid
             | inr _ => ERROR
             end
    /\ parent_tcb k' = parent_tcb k
    /\ child_tcb k' = Some (transfer_context cfg (parent_tcb k) context c1)
    /\ memory k' = memcpy_bytes (new_sp (parent_tcb k) context c1) (sp context)
                     (stack_utilization (parent_tcb k) context) (memory k)
    /\ calls k' = calls k ++ transfer_events cfg env context k c1.
Proof.
  intros H. rewrite (up_vfork_reaches_start _ _ _ _ _ _ H).
  eexists _, _. split; [reflexivity|].
  destruct (task_vforkstart_frame env
              (transfer_context cfg (parent_tcb k) context c1)
              (kernel_before_start cfg context k c0 c1)) as (Hp & Hc & Hm & _).
  rewrite task_vforkstart_ret, Hp, Hc, Hm, task_vforkstart_calls.
  unfold kernel_before_start, transfer_events.
  cbn [store_child parent_tcb child_tcb memory calls memcpy log set_memory].
  destruct (heapinfo_state cfg c1 (kernel_after_create_stack cfg context k c0 c1))
    as (Hp' & _ & Hm').
  rewrite Hp', Hm', heapinfo_calls.
  unfold kernel_after_create_stack.
  cbn [store_child parent_tcb child_tcb memory calls memcpy log set_memory].
  repeat split; try reflexivity.
  rewrite <- !app_assoc. reflexivity.
Qed.

(** ** Frame-pointer re-basing *)

Ltac concrete :=
  repeat match goal with
         | |- _ /\ _ => split
         | |- _ -> _ => intro
         end;
  try reflexivity; try (vm_compute; reflexivity);
  try (vm_compute; lia); try (vm_compute; intuition congruence).

(** C1, the specification's own scenario (parent stack [0x1000,0x2000),
    captured fp 0x1F80, child stack [0x3000,0x4000)): the call returns, the
    captured frame pointer is inside the window and the child's saved frame
    pointer is 0x3F80, so childFp - childTop is -0x80 while
    parentTop - capturedFp is 0x80; the two differ as integers and as 32-bit
    words. *)
Lemma fp_offset_sign_counterexample :
  return_value scenario_run = Some 9
  /\ fp_in_window (sample_config true) (sample_parent 0x2000 0x1000)
                  (sample_context 0x1F80 0x1F00) = true
  /\ (exists c,
        final_child scenario_run = Some c
        /\ adj_stack_ptr (cmn c) = 0x4000
        /\ regs (xcp (cmn c)) !! REG_FP (sample_config true) = Some 0x3F80)
  /\ ~ fp_offset_as_stated 0x3F80 0x4000 0x2000 0x1F80
  /\ sub32 0x3F80 0x4000 <> sub32 0x2000 0x1F80.
Proof.
  split; [vm_compute; reflexivity|].
  split; [vm_compute; reflexivity|].
  split.
  - eexists. split; [vm_compute; reflexivity|]. split; reflexivity.
  - split; [unfold fp_offset_as_stated; lia | vm_compute; congruence].
Qed.

(** C1 (amended): on every call that reaches the transfer, the slot REG_FP
    of the child's saved registers holds the re-based frame pointer.  If the
    captured frame pointer passes the window test, the distance from the
    child's frame pointer up to the child's stack top equals the distance
    from the captured frame pointer up to the parent's stack top:
    childTop - childFp = parentTop - capturedFp, in 32-bit arithmetic and,
    when that offset fits below the child's top, as integers.  Otherwise the
    slot holds the captured frame pointer unchanged. *)
Theorem fp_rebased_from_top cfg env context k c0 c1 :
  reaches_transfer cfg env context k c0 c1 ->
  is_word (fp context) ->
  adj_stack_ptr (parent_tcb k) < modulus ->
  (REG_FP cfg < length (regs (xcp (cmn c1))))%nat ->
  REG_FP cfg <> REG_SP cfg ->
  exists ret k' c childFp,
    up_vfork cfg env context k = Returned ret k'
    /\ child_tcb k' = Some c
    /\ adj_stack_ptr (cmn c) = adj_stack_ptr (cmn c1)
    /\ regs (xcp (cmn c)) !! REG_FP cfg = Some childFp
    /\ (fp_in_window cfg (parent_tcb k) context = true ->
        sub32 (adj_stack_ptr (cmn c)) childFp
        = adj_stack_ptr (parent_tcb k) - fp context
        /\ (adj_stack_ptr (parent_tcb k) - fp context <= adj_stack_ptr (cmn c)
            < modulus ->
            adj_stack_ptr (cmn c) - childFp
            = adj_stack_ptr (parent_tcb k) - fp context))
    /\ (fp_in_window cfg (parent_tcb k) context = false ->
        childFp = fp context).
Proof.
  intros Hreach Hfp Htop Hlen Hne.
  destruct (up_vfork_success _ _ _ _ _ _ Hreach)
    as (ret & k' & Hrun & _ & _ & Hchild & _ & _).
  exists ret, k', (transfer_context cfg (parent_tcb k) context c1),
         (new_fp cfg (parent_tcb k) context c1).
  split; [exact Hrun|]. split; [exact Hchild|]. split; [reflexivity|].
  split.
  { rewrite transfer_context_regs. now apply saved_fp. }
  unfold new_fp. split; intros Hwin; rewrite Hwin; [|reflexivity].
  cbn [transfer_context child_with_xcp cmn set_xcp adj_stack_ptr].
  unfold fp_in_window in Hwin. apply andb_true_iff in Hwin as [Hle _].
  apply Z.leb_le in Hle. destruct Hfp as [Hfp0 Hfp1].
  assert (Hfu : sub32 (adj_stack_ptr (parent_tcb k)) (fp context)
                = adj_stack_ptr (parent_tcb k) - fp context)
    by (apply sub32_exact; lia).
  rewrite Hfu. split.
  - apply sub32_sub32. lia.
  - intros Hfit. rewrite sub32_exact by lia. lia.
Qed.

Lemma fp_rebased_from_top_witness :
  exists ret k' c childFp,
    up_vfork (sample_config true) (sample_env true OK 0x3000 (inl 9))
             (sample_context 0x1F80 0x1F00) (sample_kernel 0x2000 0x1000)
    = Returned ret k'
    /\ child_tcb k' = Some c
    /\ regs (xcp (cmn c)) !! 5%nat = Some childFp
    /\ sub32 (adj_stack_ptr (cmn c)) childFp = 0x2000 - 0x1F80.
Proof.
  destruct (fp_rebased_from_top (sample_config true)
              (sample_env true OK 0x3000 (inl 9))
              (sample_context 0x1F80 0x1F00) (sample_kernel 0x2000 0x1000)
              fresh_child
              scenario_child)
    as (ret & k' & c & childFp & Hrun & Hc & _ & Hslot & Hin & _).
  - unfold reaches_transfer. concrete.
  - unfold is_word. concrete.
  - concrete.
  - vm_compute. lia.
  - vm_compute. congruence.
  - exists ret, k', c, childFp.
    split; [exact Hrun|]. split; [exact Hc|]. split; [exact Hslot|].
    apply Hin. reflexivity.
Defined.

(** The three ways not to reach the transfer. *)
Lemma up_vfork_setup_fails cfg env context k :
  task_vforksetup env (entry_point context) = None ->
  up_vfork cfg env context k
  = Returned ERROR (log (Ev_vforksetup (entry_point context)) k).
Proof.
  intros H. unfold up_vfork. fold (entry_point context). now rewrite H.
Qed.

Lemma up_vfork_stack_fails cfg env context k c0 ret c1 :
  task_vforksetup env (entry_point context) = Some c0 ->
  up_create_stack env c0 (parent_stacksize cfg (parent_tcb k))
    (parent_ttype cfg (parent_tcb k)) = (ret, c1) ->
  ret <> OK ->
  up_vfork cfg env context k
  = Returned ERROR
      (task_vforkabort c1 (- ret) (kernel_after_create_stack cfg context k c0 c1)).
Proof.
  intros Hsetup Hstack Hret.
  unfold up_vfork, this_task. fold (entry_point context). rewrite Hsetup.
  fold (parent_ttype cfg (parent_tcb k)).
  cbn [parent_tcb log store_child]. rewrite Hstack.
  apply Z.eqb_neq in Hret. rewrite Hret. reflexivity.
Qed.

Lemma up_vfork_assert_fails cfg env context k c0 c1 :
  task_vforksetup env (entry_point context) = Some c0 ->
  up_create_stack env c0 (parent_stacksize cfg (parent_tcb k))
    (parent_ttype cfg (parent_tcb k)) = (OK, c1) ->
  CONFIG_DEBUG cfg = true ->
  ~ sp context < adj_stack_ptr (parent_tcb k) ->
  up_vfork cfg env context k
  = AssertionFailed
      (heapinfo cfg c1 (kernel_after_create_stack cfg context k c0 c1)).
Proof.
  intros Hsetup Hstack Hdebug Hsp.
  unfold up_vfork, this_task. fold (entry_point context). rewrite Hsetup.
  fold (parent_ttype cfg (parent_tcb k)).
  cbn [parent_tcb log store_child]. rewrite Hstack, Hdebug.
  replace (OK =? OK) with true by reflexivity. cbn [negb andb].
  apply Z.ltb_nlt in Hsp. rewrite Hsp. reflexivity.
Qed.

(** On every call that reaches the transfer the child's REG_FP slot holds
    [new_fp] and its REG_SP slot holds [new_sp]. *)
Lemma up_vfork_saved_pointers cfg env context k c0 c1 :
  reaches_transfer cfg env context k c0 c1 ->
  exists ret k' c,
    up_vfork cfg env context k = Returned ret k'
    /\ child_tcb k' = Some c
    /\ adj_stack_ptr (cmn c) = adj_stack_ptr (cmn c1)
    /\ adj_stack_size (cmn c) = adj_stack_size (cmn c1)
    /\ ((REG_SP cfg < length (regs (xcp (cmn c1))))%nat ->
        regs (xcp (cmn c)) !! REG_SP cfg = Some (new_sp (parent_tcb k) context c1))
    /\ ((REG_FP cfg < length (regs (xcp (cmn c1))))%nat ->
        REG_FP cfg <> REG_SP cfg ->
        regs (xcp (cmn c)) !! REG_FP cfg
        = Some (new_fp cfg (parent_tcb k) context c1)).
Proof.
  intros Hreach.
  destruct (up_vfork_success _ _ _ _ _ _ Hreach)
    as (ret & k' & Hrun & _ & _ & Hchild & _ & _).
  exists ret, k', (transfer_context cfg (parent_tcb k) context c1).
  split; [exact Hrun|]. split; [exact Hchild|].
  split; [reflexivity|]. split; [reflexivity|].
  rewrite transfer_context_regs. split.
  - intros Hlen. now apply saved_sp.
  - intros Hlen Hne. now apply saved_fp.
Qed.

(** The window test of line 204 when nothing wraps: the closed interval
    from parentTop - (size + STACK_ALIGNMENT - 1) to parentTop. *)
Lemma fp_in_window_interval cfg parent context :
  parent_stack_ok cfg parent ->
  STACK_ALIGNMENT cfg - 1 <= stack_base parent ->
  (fp_in_window cfg parent context = true <->
   adj_stack_ptr parent - (adj_stack_size parent + STACK_ALIGNMENT cfg - 1)
   <= fp context <= adj_stack_ptr parent).
Proof.
  intros (Ha & Hsz & Hbase & Htop & Hpad) Hroom.
  unfold stack_base in *. unfold fp_in_window, parent_stacksize.
  rewrite wrap_small by lia. rewrite sub32_exact by lia.
  rewrite andb_true_iff, Z.leb_le, Z.leb_le. lia.
Qed.

(** C10: the window test is the closed interval whose lower bound is the
    parent's stack top minus the padded size adj_stack_size +
    STACK_ALIGNMENT - 1.  A captured frame pointer equal to the parent's
    stack top is re-based to the child's stack top, and one that lies j
    bytes below the parent's stack base, j up to STACK_ALIGNMENT - 1, passes
    the test and is re-based to the same distance below the child's top;
    the re-based value is what the child's REG_FP slot holds. *)
Theorem fp_window_inclusive_and_padded cfg env context k c0 c1 :
  reaches_transfer cfg env context k c0 c1 ->
  parent_stack_ok cfg (parent_tcb k) ->
  STACK_ALIGNMENT cfg - 1 <= stack_base (parent_tcb k) ->
  is_word (adj_stack_ptr (cmn c1)) ->
  (REG_FP cfg < length (regs (xcp (cmn c1))))%nat ->
  REG_FP cfg <> REG_SP cfg ->
  exists ret k' c childFp,
    up_vfork cfg env context k = Returned ret k'
    /\ child_tcb k' = Some c
    /\ adj_stack_ptr (cmn c) = adj_stack_ptr (cmn c1)
    /\ regs (xcp (cmn c)) !! REG_FP cfg = Some childFp
    /\ (fp_in_window cfg (parent_tcb k) context = true <->
        adj_stack_ptr (parent_tcb k)
        - (adj_stack_size (parent_tcb k) + STACK_ALIGNMENT cfg - 1)
        <= fp context <= adj_stack_ptr (parent_tcb k))
    /\ (fp context = adj_stack_ptr (parent_tcb k) ->
        fp_in_window cfg (parent_tcb k) context = true
        /\ childFp = adj_stack_ptr (cmn c))
    /\ (forall j, 0 <= j <= STACK_ALIGNMENT cfg - 1 ->
        fp context = stack_base (parent_tcb k) - j ->
        fp_in_window cfg (parent_tcb k) context = true
        /\ childFp = sub32 (adj_stack_ptr (cmn c))
                           (adj_stack_size (parent_tcb k) + j)).
Proof.
  intros Hreach Hok Hroom Hctop Hlen Hne.
  destruct (up_vfork_saved_pointers _ _ _ _ _ _ Hreach)
    as (ret & k' & c & Hrun & Hchild & Hptr & _ & _ & Hfp).
  exists ret, k', c, (new_fp cfg (parent_tcb k) context c1).
  split; [exact Hrun|]. split; [exact Hchild|]. split; [exact Hptr|].
  split; [now apply Hfp|].
  pose proof (fp_in_window_interval cfg (parent_tcb k) context Hok Hroom) as Hiff.
  split; [exact Hiff|].
  destruct Hok as (Ha & Hsz & Hbase & Htop & Hpad).
  unfold stack_base in *. rewrite Hptr. split.
  - intros Heq.
    assert (Hin : fp_in_window cfg (parent_tcb k) context = true)
      by (apply Hiff; lia).
    split; [exact Hin|]. unfold new_fp. rewrite Hin, Heq.
    rewrite (sub32_exact (adj_stack_ptr (parent_tcb k))) by (unfold modulus; lia).
    replace (adj_stack_ptr (parent_tcb k) - adj_stack_ptr (parent_tcb k))
      with 0 by lia.
    unfold sub32. rewrite Z.sub_0_r. apply wrap_small. exact Hctop.
  - intros j Hj Heq.
    assert (Hin : fp_in_window cfg (parent_tcb k) context = true)
      by (apply Hiff; lia).
    split; [exact Hin|]. unfold new_fp. rewrite Hin, Heq.
    rewrite (sub32_exact (adj_stack_ptr (parent_tcb k))) by lia.
    f_equal. lia.
Qed.

Lemma fp_window_inclusive_and_padded_witness :
  exists ret k' c,
    up_vfork (sample_config true) (sample_env true OK 0x3000 (inl 9))
             (sample_context 0x0FF9 0x1F00) (sample_kernel 0x2000 0x1000)
    = Returned ret k'
    /\ child_tcb k' = Some c
    /\ fp_in_window (sample_config true) (sample_parent 0x2000 0x1000)
                    (sample_context 0x0FF9 0x1F00) = true
    /\ regs (xcp (cmn c)) !! 5%nat = Some 0x2FF9.
Proof.
  destruct (fp_window_inclusive_and_padded (sample_config true)
              (sample_env true OK 0x3000 (inl 9))
              (sample_context 0x0FF9 0x1F00) (sample_kernel 0x2000 0x1000)
              fresh_child
              scenario_child)
    as (ret & k' & c & childFp & Hrun & Hc & Hptr & Hslot & _ & _ & Hbelow).
  - unfold reaches_transfer. concrete.
  - unfold parent_stack_ok, stack_base. concrete.
  - vm_compute. congruence.
  - unfold is_word. concrete.
  - vm_compute. lia.
  - vm_compute. congruence.
  - exists ret, k', c.
    split; [exact Hrun|]. split; [exact Hc|].
    destruct (Hbelow 7) as [Hin Hval]; [vm_compute; intuition congruence | reflexivity |].
    split; [exact Hin|].
    rewrite Hval, Hptr in Hslot. exact Hslot.
Defined.

(** ** The child's stack pointer and the stack copy *)

(** C3: when the captured stack pointer is below the parent's adjusted stack
    top and inside the parent's stack region, and the allocator reported the
    child's region for the size requested, the child's REG_SP slot holds
    newsp = childTop - (parentTop - capturedSp), and newsp lies in the
    child's region [childBase, childBase + childSize). *)
Theorem child_sp_inside_child_stack cfg env context k c0 c1 :
  reaches_transfer cfg env context k c0 c1 ->
  parent_stack_ok cfg (parent_tcb k) ->
  stack_allocated cfg (parent_stacksize cfg (parent_tcb k)) (cmn c1) ->
  sp context < adj_stack_ptr (parent_tcb k) ->
  in_stack_region (parent_tcb k) (sp context) ->
  (REG_SP cfg < length (regs (xcp (cmn c1))))%nat ->
  exists ret k' c newsp,
    up_vfork cfg env context k = Returned ret k'
    /\ child_tcb k' = Some c
    /\ adj_stack_ptr (cmn c) = adj_stack_ptr (cmn c1)
    /\ adj_stack_size (cmn c) = adj_stack_size (cmn c1)
    /\ regs (xcp (cmn c)) !! REG_SP cfg = Some newsp
    /\ newsp = adj_stack_ptr (cmn c)
               - (adj_stack_ptr (parent_tcb k) - sp context)
    /\ in_stack_region (cmn c) newsp.
Proof.
  intros Hreach (Ha & Hsz & Hbase & Htop & Hpad) (Hcb & Hct & Hcs) Hlt Hin Hlen.
  destruct (up_vfork_saved_pointers _ _ _ _ _ _ Hreach)
    as (ret & k' & c & Hrun & Hchild & Hptr & Hsize & Hsp & _).
  exists ret, k', c, (new_sp (parent_tcb k) context c1).
  split; [exact Hrun|]. split; [exact Hchild|].
  split; [exact Hptr|]. split; [exact Hsize|]. split; [now apply Hsp|].
  unfold in_stack_region, stack_base in *. rewrite Hptr, Hsize.
  unfold parent_stacksize in Hcs. rewrite wrap_small in Hcs by lia.
  unfold new_sp, stack_utilization.
  rewrite (sub32_exact (adj_stack_ptr (parent_tcb k))) by lia.
  rewrite sub32_exact by lia. lia.
Qed.

Lemma child_sp_inside_child_stack_witness :
  exists ret k' c,
    up_vfork (sample_config true) (sample_env true OK 0x3000 (inl 9))
             (sample_context 0x1F80 0x1F00) (sample_kernel 0x2000 0x1000)
    = Returned ret k'
    /\ child_tcb k' = Some c
    /\ regs (xcp (cmn c)) !! 0%nat = Some 0x3F00
    /\ in_stack_region (cmn c) 0x3F00.
Proof.
  destruct (child_sp_inside_child_stack (sample_config true)
              (sample_env true OK 0x3000 (inl 9))
              (sample_context 0x1F80 0x1F00) (sample_kernel 0x2000 0x1000)
              fresh_child
              scenario_child)
    as (ret & k' & c & newsp & Hrun & Hc & Hptr & _ & Hslot & Hval & Hin).
  - unfold reaches_transfer. concrete.
  - unfold parent_stack_ok, stack_base. concrete.
  - unfold stack_allocated, stack_base. concrete.
  - concrete.
  - unfold in_stack_region, stack_base. concrete.
  - vm_compute. lia.
  - exists ret, k', c.
    split; [exact Hrun|]. split; [exact Hc|].
    assert (Hnewsp : newsp = 0x3F00).
    { rewrite Hval, Hptr. reflexivity. }
    rewrite Hnewsp in *. split; assumption.
Defined.

Lemma transfer_events_summary cfg env context k c1 :
  copies (transfer_events cfg env context k c1)
  = [(new_sp (parent_tcb k) context c1, sp context,
      stack_utilization (parent_tcb k) context)]
  /\ stack_requests (transfer_events cfg env context k c1)
     = [parent_stacksize cfg (parent_tcb k)]
  /\ (released (transfer_events cfg env context k c1)
      + scheduled (transfer_events cfg env context k c1) = 1)%nat
  /\ released (transfer_events cfg env context k c1)
     = match task_activate env (transfer_context cfg (parent_tcb k) context c1) with
       | inl _ => O
       | inr _ => 1%nat
       end.
Proof.
  unfold transfer_events, heapinfo_events, start_events.
  destruct (CONFIG_DEBUG_MM_HEAPINFO cfg);
    destruct (task_activate env _); repeat split; reflexivity.
Qed.

(** C2: a call that passes the DEBUGASSERT (captured sp 0x0800 below the
    parent's top 0x2000) with the captured stack pointer under the parent's
    stack [0x1000,0x2000): it returns after copying 0x1800 bytes, more than
    the 0x1000 bytes of either stack. *)
Lemma copy_exceeds_stack_sizes_counterexample :
  return_value low_sp_run = Some 9
  /\ copies (calls (outcome_kernel low_sp_run)) = [(0x2800, 0x0800, 0x1800)]
  /\ 0x1800 = 0x2000 - 0x0800
  /\ (exists c,
        final_child low_sp_run = Some c
        /\ stack_allocated (sample_config true)
             (parent_stacksize (sample_config true) (sample_parent 0x2000 0x1000))
             (cmn c)
        /\ ~ 0x1800 <= Z.min (adj_stack_size (sample_parent 0x2000 0x1000))
                             (adj_stack_size (cmn c))).
Proof.
  split; [vm_compute; reflexivity|].
  split; [vm_compute; reflexivity|].
  split; [reflexivity|].
  eexists. split; [vm_compute; reflexivity|]. split.
  - unfold stack_allocated, stack_base. vm_compute. intuition congruence.
  - vm_compute. intros H. apply H. reflexivity.
Qed.

(** C2 (amended): a call that reaches the transfer performs one memcpy, from
    the captured stack pointer to the child's new stack pointer, of
    parentTop - capturedSp bytes computed in unsigned 32-bit arithmetic; that
    is the integer parentTop - capturedSp when the captured stack pointer is
    not above the parent's top.  When the captured stack pointer lies in the
    parent's stack, between its base and its top, and the allocator reported
    the child's region for the size requested, the count does not exceed the
    smaller of the two adjusted stack sizes. *)
Theorem copy_count_and_bound cfg env context k c0 c1 :
  reaches_transfer cfg env context k c0 c1 ->
  is_word (sp context) ->
  adj_stack_ptr (parent_tcb k) < modulus ->
  exists ret k' evs n,
    up_vfork cfg env context k = Returned ret k'
    /\ calls k' = calls k ++ evs
    /\ copies evs = [(new_sp (parent_tcb k) context c1, sp context, n)]
    /\ n = sub32 (adj_stack_ptr (parent_tcb k)) (sp context)
    /\ (sp context <= adj_stack_ptr (parent_tcb k) ->
        n = adj_stack_ptr (parent_tcb k) - sp context)
    /\ (parent_stack_ok cfg (parent_tcb k) ->
        stack_allocated cfg (parent_stacksize cfg (parent_tcb k)) (cmn c1) ->
        stack_base (parent_tcb k) <= sp context <= adj_stack_ptr (parent_tcb k) ->
        n <= Z.min (adj_stack_size (parent_tcb k)) (adj_stack_size (cmn c1))).
Proof.
  intros Hreach [Hsp0 Hsp1] Htop.
  destruct (up_vfork_success _ _ _ _ _ _ Hreach)
    as (ret & k' & Hrun & _ & _ & _ & _ & Hcalls).
  exists ret, k', (transfer_events cfg env context k c1),
         (stack_utilization (parent_tcb k) context).
  split; [exact Hrun|]. split; [exact Hcalls|].
  split; [apply transfer_events_summary|].
  split; [reflexivity|].
  unfold stack_utilization. split.
  - intros Hle. apply sub32_exact. lia.
  - intros (Ha & Hsz & Hbase & _ & Hpad) (_ & _ & Hcs) [Hlo Hhi].
    unfold parent_stacksize in Hcs. rewrite wrap_small in Hcs by lia.
    unfold stack_base in *. rewrite sub32_exact by lia. lia.
Qed.

Lemma copy_count_and_bound_witness :
  exists ret k' evs,
    up_vfork (sample_config true) (sample_env true OK 0x3000 (inl 9))
             (sample_context 0x1F80 0x1F00) (sample_kernel 0x2000 0x1000)
    = Returned ret k'
    /\ calls k' = [] ++ evs
    /\ copies evs = [(0x3F00, 0x1F00, 0x100)].
Proof.
  destruct (copy_count_and_bound (sample_config true)
              (sample_env true OK 0x3000 (inl 9))
              (sample_context 0x1F80 0x1F00) (sample_kernel 0x2000 0x1000)
              fresh_child
              scenario_child)
    as (ret & k' & evs & n & Hrun & Hcalls & Hcopies & Hn & _ & _).
  - unfold reaches_transfer. concrete.
  - unfold is_word. concrete.
  - concrete.
  - exists ret, k', evs.
    split; [exact Hrun|]. split; [exact Hcalls|].
    rewrite Hcopies, Hn. reflexivity.
Defined.

(** ** The stack size requested for the child *)

Lemma round_up_bounds a x :
  1 <= a -> x <= round_up_to_alignment a x < x + a.
Proof.
  intros Ha. unfold round_up_to_alignment.
  pose proof (Z.div_mod (x + a - 1) a ltac:(lia)) as Hdm.
  pose proof (Z.mod_pos_bound (x + a - 1) a ltac:(lia)) as Hm.
  nia.
Qed.

(** C4: with 8-byte alignment and an adjusted parent stack size of 0x1000,
    already a multiple of 8, the size requested for the child is 0x1007,
    not the size rounded up to the alignment (0x1000). *)
Lemma requested_size_not_rounded_counterexample :
  stack_requests (calls (outcome_kernel scenario_run)) = [0x1007]
  /\ round_up_to_alignment (STACK_ALIGNMENT (sample_config true))
       (adj_stack_size (sample_parent 0x2000 0x1000)) = 0x1000
  /\ 0x1007 <> round_up_to_alignment (STACK_ALIGNMENT (sample_config true))
                 (adj_stack_size (sample_parent 0x2000 0x1000)).
Proof.
  split; [vm_compute; reflexivity|].
  split; [reflexivity|].
  vm_compute. congruence.
Qed.

(** Once the set-up has returned a child, a call ends in one of three ways. *)
Lemma up_vfork_paths cfg env context k c0 :
  task_vforksetup env (entry_point context) = Some c0 ->
  exists ret c1,
    up_create_stack env c0 (parent_stacksize cfg (parent_tcb k))
      (parent_ttype cfg (parent_tcb k)) = (ret, c1)
    /\ ((ret <> OK
         /\ up_vfork cfg env context k
            = Returned ERROR
                (task_vforkabort c1 (- ret)
                   (kernel_after_create_stack cfg context k c0 c1)))
        \/ (ret = OK /\ CONFIG_DEBUG cfg = true
            /\ ~ sp context < adj_stack_ptr (parent_tcb k)
            /\ up_vfork cfg env context k
               = AssertionFailed
                   (heapinfo cfg c1
                      (kernel_after_create_stack cfg context k c0 c1)))
        \/ (ret = OK /\ reaches_transfer cfg env context k c0 c1)).
Proof.
  intros Hsetup.
  destruct (up_create_stack env c0 (parent_stacksize cfg (parent_tcb k))
              (parent_ttype cfg (parent_tcb k))) as [ret c1] eqn:Hstack.
  exists ret, c1. split; [reflexivity|].
  destruct (Z.eq_dec ret OK) as [->|Hret].
  - destruct (CONFIG_DEBUG cfg) eqn:Hdebug.
    + destruct (Z_lt_dec (sp context) (adj_stack_ptr (parent_tcb k))) as [Hlt|Hge].
      * right; right. split; [reflexivity|]. repeat split; auto.
      * right; left. repeat split; auto.
        now apply up_vfork_assert_fails.
    + right; right. split; [reflexivity|]. repeat split; auto.
      rewrite Hdebug. discriminate.
  - left. split; [exact Hret|]. now apply up_vfork_stack_fails.
Qed.

(** C4 (amended): whenever the set-up succeeds the allocator is asked once,
    for the parent's adjusted stack size plus STACK_ALIGNMENT - 1; no
    rounding is applied.  That request is at least the adjusted size rounded
    up to the alignment and less than one alignment unit above it, it is not
    smaller than the parent's adjusted stack size, and when the captured
    stack pointer lies in the parent's stack it is not smaller than the
    parent's stack usage. *)
Theorem requested_stack_size cfg env context k c0 :
  task_vforksetup env (entry_point context) = Some c0 ->
  parent_stack_ok cfg (parent_tcb k) ->
  exists evs req,
    calls (outcome_kernel (up_vfork cfg env context k)) = calls k ++ evs
    /\ stack_requests evs = [req]
    /\ req = adj_stack_size (parent_tcb k) + STACK_ALIGNMENT cfg - 1
    /\ round_up_to_alignment (STACK_ALIGNMENT cfg) (adj_stack_size (parent_tcb k))
       <= req
       < round_up_to_alignment (STACK_ALIGNMENT cfg) (adj_stack_size (parent_tcb k))
         + STACK_ALIGNMENT cfg
    /\ adj_stack_size (parent_tcb k) <= req
    /\ (stack_base (parent_tcb k) <= sp context <= adj_stack_ptr (parent_tcb k) ->
        stack_utilization (parent_tcb k) context <= req).
Proof.
  intros Hsetup (Ha & Hsz & Hbase & Htop & Hpad).
  assert (Hreq : parent_stacksize cfg (parent_tcb k)
                 = adj_stack_size (parent_tcb k) + STACK_ALIGNMENT cfg - 1)
    by (unfold parent_stacksize; apply wrap_small; lia).
  assert (Hlog : exists evs,
             calls (outcome_kernel (up_vfork cfg env context k)) = calls k ++ evs
             /\ stack_requests evs = [parent_stacksize cfg (parent_tcb k)]).
  { destruct (up_vfork_paths cfg env context k c0 Hsetup)
      as (ret & c1 & Hstack & [(Hret & Hrun) | [(-> & Hd & Hsp & Hrun) | (-> & Hreach)]]).
    - rewrite Hrun. eexists. split.
      + cbn. rewrite <- !app_assoc. reflexivity.
      + reflexivity.
    - rewrite Hrun. cbn [outcome_kernel]. rewrite heapinfo_calls.
      eexists. split.
      + cbn. rewrite <- !app_assoc. reflexivity.
      + unfold heapinfo_events. destruct (CONFIG_DEBUG_MM_HEAPINFO cfg); reflexivity.
    - destruct (up_vfork_success _ _ _ _ _ _ Hreach)
        as (r & k' & Hrun & _ & _ & _ & _ & Hcalls).
      rewrite Hrun. cbn [outcome_kernel]. eexists. split; [exact Hcalls|].
      apply transfer_events_summary. }
  destruct Hlog as (evs & Hcalls & Hreqs).
  exists evs, (parent_stacksize cfg (parent_tcb k)).
  split; [exact Hcalls|]. split; [exact Hreqs|]. split; [exact Hreq|].
  rewrite Hreq.
  pose proof (round_up_bounds (STACK_ALIGNMENT cfg) (adj_stack_size (parent_tcb k)) Ha).
  split; [lia|]. split; [lia|].
  intros [Hlo Hhi]. unfold stack_utilization, stack_base in *.
  rewrite sub32_exact by lia. lia.
Qed.

Lemma requested_stack_size_witness :
  exists evs,
    calls (outcome_kernel
             (up_vfork (sample_config true) (sample_env true OK 0x3000 (inl 9))
                (sample_context 0x1F80 0x1F00) (sample_kernel 0x2000 0x1000)))
    = [] ++ evs
    /\ stack_requests evs = [0x1000 + 8 - 1].
Proof.
  destruct (requested_stack_size (sample_config true)
              (sample_env true OK 0x3000 (inl 9))
              (sample_context 0x1F80 0x1F00) (sample_kernel 0x2000 0x1000)
              fresh_child)
    as (evs & req & Hcalls & Hreqs & Hreq & _).
  - reflexivity.
  - unfold parent_stack_ok, stack_base. concrete.
  - exists evs. split; [exact Hcalls|]. rewrite Hreqs, Hreq. reflexivity.
Defined.

(** ** Failure paths *)

Lemma transfer_events_tcbs cfg env context k c1 :
  match task_activate env (transfer_context cfg (parent_tcb k) context c1) with
  | inl _ =>
      released_tcbs (transfer_events cfg env context k c1) = []
      /\ scheduled_tcbs (transfer_events cfg env context k c1)
         = [transfer_context cfg (parent_tcb k) context c1]
  | inr errcode =>
      released_tcbs (transfer_events cfg env context k c1)
      = [transfer_context cfg (parent_tcb k) context c1]
      /\ scheduled_tcbs (transfer_events cfg env context k c1) = []
      /\ In (Ev_vforkabort (transfer_context cfg (parent_tcb k) context c1)
                           errcode)
            (transfer_events cfg env context k c1)
  end.
Proof.
  unfold transfer_events, heapinfo_events, start_events.
  destruct (CONFIG_DEBUG_MM_HEAPINFO cfg);
    destruct (task_activate env _); repeat split; try reflexivity;
    cbn; tauto.
Qed.

(** C5: on each path to a return the call returns, and the child is
    released or scheduled as follows.  If the set-up fails the call returns
    ERROR after the set-up call alone: no child exists and no clean-up call
    is made.  If the allocator fails with status ret the call makes one
    task_vforkabort call, on the child TCB as the allocator left it and with
    -ret, as its last action, and returns ERROR.  If task_vforkstart fails
    the call returns ERROR and the TCB released (by task_vforkstart), once,
    is the child's, which is never scheduled.  If the start succeeds the TCB
    scheduled, once, is the child's, which is never released.  So a child,
    once set up, is on return released or scheduled, exactly one of them and
    exactly once, and no other TCB is. *)
Theorem cleanup_exactly_once cfg env context k p :
  takes_path cfg env context k p ->
  exists ret k' evs,
    up_vfork cfg env context k = Returned ret k'
    /\ calls k' = calls k ++ evs
    /\ match p with
       | SetupFails =>
           ret = ERROR
           /\ evs = [Ev_vforksetup (entry_point context)]
           /\ child_tcb k' = child_tcb k
           /\ released_tcbs evs = [] /\ scheduled_tcbs evs = []
           /\ released evs = 0%nat /\ scheduled evs = 0%nat
       | StackFails c0 r c1 =>
           ret = ERROR
           /\ evs = [ Ev_vforksetup (entry_point context);
                      Ev_create_stack (parent_stacksize cfg (parent_tcb k))
                                      (parent_ttype cfg (parent_tcb k));
                      Ev_vforkabort c1 (- r) ]
           /\ child_tcb k' = Some c1
           /\ released_tcbs evs = [c1] /\ scheduled_tcbs evs = []
           /\ released evs = 1%nat /\ scheduled evs = 0%nat
       | StartFails c0 c1 errcode =>
           ret = ERROR
           /\ child_tcb k'
              = Some (transfer_context cfg (parent_tcb k) context c1)
           /\ In (Ev_vforkabort
                    (transfer_context cfg (parent_tcb k) context c1) errcode)
                 evs
           /\ released_tcbs evs
              = [transfer_context cfg (parent_tcb k) context c1]
           /\ scheduled_tcbs evs = []
           /\ released evs = 1%nat /\ scheduled evs = 0%nat
       | Started c0 c1 child_pid =>
           ret = child_pid
           /\ child_tcb k'
              = Some (transfer_context cfg (parent_tcb k) context c1)
           /\ released_tcbs evs = []
           /\ scheduled_tcbs evs
              = [transfer_context cfg (parent_tcb k) context c1]
           /\ released evs = 0%nat /\ scheduled evs = 1%nat
       end.
Proof.
  destruct p as [|c0 r c1|c0 c1 errcode|c0 c1 child_pid]; cbn [takes_path].
  - intros Hsetup. rewrite (up_vfork_setup_fails _ _ _ _ Hsetup).
    eexists _, _, _. split; [reflexivity|]. split; [reflexivity|].
    repeat split; reflexivity.
  - intros (Hsetup & Hstack & Hret).
    rewrite (up_vfork_stack_fails _ _ _ _ _ _ _ Hsetup Hstack Hret).
    eexists _, _, _. split; [reflexivity|]. split.
    + cbn. rewrite <- !app_assoc. reflexivity.
    + repeat split; reflexivity.
  - intros (Hreach & Hact).
    destruct (up_vfork_success _ _ _ _ _ _ Hreach)
      as (ret & k' & Hrun & Hret & _ & Hchild & _ & Hcalls).
    exists ret, k', (transfer_events cfg env context k c1).
    split; [exact Hrun|]. split; [exact Hcalls|].
    destruct (transfer_events_summary cfg env context k c1)
      as (_ & _ & Hone & Hrel).
    pose proof (transfer_events_tcbs cfg env context k c1) as Htcbs.
    rewrite Hact in Hret, Hrel, Htcbs. destruct Htcbs as (Hr & Hs & Hin).
    split; [exact Hret|]. split; [exact Hchild|]. split; [exact Hin|].
    split; [exact Hr|]. split; [exact Hs|]. lia.
  - intros (Hreach & Hact).
    destruct (up_vfork_success _ _ _ _ _ _ Hreach)
      as (ret & k' & Hrun & Hret & _ & Hchild & _ & Hcalls).
    exists ret, k', (transfer_events cfg env context k c1).
    split; [exact Hrun|]. split; [exact Hcalls|].
    destruct (transfer_events_summary cfg env context k c1)
      as (_ & _ & Hone & Hrel).
    pose proof (transfer_events_tcbs cfg env context k c1) as Htcbs.
    rewrite Hact in Hret, Hrel, Htcbs. destruct Htcbs as (Hr & Hs).
    split; [exact Hret|]. split; [exact Hchild|].
    split; [exact Hr|]. split; [exact Hs|]. lia.
Qed.

Lemma cleanup_exactly_once_witness :
  exists k',
    up_vfork (sample_config true) (sample_env true (-12) 0x3000 (inl 9))
             (sample_context 0x1F80 0x1F00) (sample_kernel 0x2000 0x1000)
    = Returned ERROR k'
    /\ calls k' = [ Ev_vforksetup 0x08000100; Ev_create_stack 0x1007 1;
                    Ev_vforkabort fresh_child 12 ]
    /\ released_tcbs (calls k') = [fresh_child].
Proof.
  destruct (cleanup_exactly_once (sample_config true)
              (sample_env true (-12) 0x3000 (inl 9))
              (sample_context 0x1F80 0x1F00) (sample_kernel 0x2000 0x1000)
              (StackFails fresh_child (-12) fresh_child))
    as (ret & k' & evs & Hrun & Hcalls & -> & -> & _ & Hrel & _).
  - cbn [takes_path]. concrete.
  - exists k'. split; [exact Hrun|]. split; [exact Hcalls|].
    rewrite Hcalls. exact Hrel.
Defined.

(** C7: two calls whose captured stack pointer (0x2004) is above the
    parent's adjusted stack top (0x2000) and that do not end in the
    assertion.  Built without CONFIG_DEBUG, the call goes on, copies the
    wrapped-around count 0xFFFFFFFC and returns the child's pid; built with
    CONFIG_DEBUG but with a failing set-up, it returns ERROR before the
    assertion is reached. *)
Lemma stack_pointer_assertion_counterexample :
  ~ sp (sample_context 0x1F80 0x2004)
    < adj_stack_ptr (parent_tcb (sample_kernel 0x2000 0x1000))
  /\ return_value (high_sp_run false true) = Some 9
  /\ copies (calls (outcome_kernel (high_sp_run false true)))
     = [(0x4004, 0x2004, 0xFFFFFFFC)]
  /\ return_value (high_sp_run true false) = Some ERROR.
Proof.
  split; [vm_compute; congruence|].
  split; [vm_compute; reflexivity|].
  split; vm_compute; reflexivity.
Qed.

(** C7 (amended): after a successful set-up and stack allocation, a call
    built with CONFIG_DEBUG whose captured stack pointer is not strictly
    below the parent's adjusted stack top ends in the failed DEBUGASSERT: it
    does not return, nothing has been copied and the child has been neither
    started nor released.  Built without CONFIG_DEBUG the same call goes on
    and copies the count parentTop - capturedSp as wrapped by the unsigned
    subtraction.  When the captured stack pointer is strictly below the
    parent's top the call goes on in either build and the count is the exact
    difference, positive and not wrapped. *)
Theorem stack_pointer_assertion cfg env context k c0 c1 :
  task_vforksetup env (entry_point context) = Some c0 ->
  up_create_stack env c0 (parent_stacksize cfg (parent_tcb k))
    (parent_ttype cfg (parent_tcb k)) = (OK, c1) ->
  is_word (sp context) ->
  is_word (adj_stack_ptr (parent_tcb k)) ->
  (~ sp context < adj_stack_ptr (parent_tcb k) ->
   if CONFIG_DEBUG cfg then
     exists k' evs,
       up_vfork cfg env context k = AssertionFailed k'
       /\ calls k' = calls k ++ evs
       /\ copies evs = []
       /\ released evs = 0%nat /\ scheduled evs = 0%nat
   else
     exists ret k' evs,
       up_vfork cfg env context k = Returned ret k'
       /\ calls k' = calls k ++ evs
       /\ copies evs
          = [(new_sp (parent_tcb k) context c1, sp context,
              if sp context =? adj_stack_ptr (parent_tcb k) then 0
              else adj_stack_ptr (parent_tcb k) - sp context + modulus)])
  /\ (sp context < adj_stack_ptr (parent_tcb k) ->
      exists ret k' evs,
        up_vfork cfg env context k = Returned ret k'
        /\ calls k' = calls k ++ evs
        /\ copies evs
           = [(new_sp (parent_tcb k) context c1, sp context,
               adj_stack_ptr (parent_tcb k) - sp context)]
        /\ 0 < adj_stack_ptr (parent_tcb k) - sp context < modulus).
Proof.
  intros Hsetup Hstack [Hsp0 Hsp1] [Htop0 Htop1]. split.
  - intros Hge. destruct (CONFIG_DEBUG cfg) eqn:Hdebug.
    + rewrite (up_vfork_assert_fails _ _ _ _ _ _ Hsetup Hstack Hdebug Hge).
      eexists _, _. split; [reflexivity|].
      rewrite heapinfo_calls. split.
      * cbn. rewrite <- !app_assoc. reflexivity.
      * unfold heapinfo_events.
        destruct (CONFIG_DEBUG_MM_HEAPINFO cfg); repeat split; reflexivity.
    + assert (Hreach : reaches_transfer cfg env context k c0 c1).
      { repeat split; auto. rewrite Hdebug. discriminate. }
      destruct (up_vfork_success _ _ _ _ _ _ Hreach)
        as (ret & k' & Hrun & _ & _ & _ & _ & Hcalls).
      exists ret, k', (transfer_events cfg env context k c1).
      split; [exact Hrun|]. split; [exact Hcalls|].
      destruct (transfer_events_summary cfg env context k c1) as (-> & _).
      do 2 f_equal. unfold stack_utilization, sub32, wrap.
      destruct (Z.eqb_spec (sp context) (adj_stack_ptr (parent_tcb k))) as [->|Hne].
      * rewrite Z.sub_diag. reflexivity.
      * symmetry. apply Z.mod_unique with (q := -1); lia.
  - intros Hlt.
    assert (Hreach : reaches_transfer cfg env context k c0 c1)
      by (repeat split; auto).
    destruct (up_vfork_success _ _ _ _ _ _ Hreach)
      as (ret & k' & Hrun & _ & _ & _ & _ & Hcalls).
    exists ret, k', (transfer_events cfg env context k c1).
    split; [exact Hrun|]. split; [exact Hcalls|].
    destruct (transfer_events_summary cfg env context k c1) as (-> & _).
    split; [|lia].
    do 2 f_equal. unfold stack_utilization. apply sub32_exact. lia.
Qed.

Lemma stack_pointer_assertion_witness :
  exists k',
    up_vfork (sample_config true) (sample_env true OK 0x3000 (inl 9))
             (sample_context 0x1F80 0x2004) (sample_kernel 0x2000 0x1000)
    = AssertionFailed k'
    /\ copies (calls k') = [].
Proof.
  destruct (stack_pointer_assertion (sample_config true)
              (sample_env true OK 0x3000 (inl 9))
              (sample_context 0x1F80 0x2004) (sample_kernel 0x2000 0x1000)
              fresh_child
              scenario_child)
    as [Hfatal _].
  - reflexivity.
  - reflexivity.
  - unfold is_word. concrete.
  - unfold is_word. concrete.
  - destruct Hfatal as (k' & evs & Hrun & Hcalls & Hcopies & _).
    + vm_compute. congruence.
    + exists k'. split; [exact Hrun|]. rewrite Hcalls. exact Hcopies.
Defined.

(** ** What up_vfork writes *)

Lemma memcpy_bytes_outside dst src n m a :
  ~ dst <= a < dst + n -> memcpy_bytes dst src n m a = m a.
Proof.
  intros H. unfold memcpy_bytes.
  destruct (dst <=? a) eqn:E1; [|reflexivity].
  destruct (a <? dst + n) eqn:E2; [|reflexivity].
  apply Z.leb_le in E1. apply Z.ltb_lt in E2. lia.
Qed.

(** C9: both calls pass the DEBUGASSERT.  In the first the captured stack
    pointer 0x2800 is under the parent's stack [0x3000,0x4000); 0x1800 bytes
    are copied to 0x0800, and the byte at 0x0800, which is outside the
    child's stack [0x1000,0x2000), changes from 0x08 to 0x28 (source and
    destination of the copy do not overlap).  In the second the captured
    stack pointer is 0x0800 and the child's stack is [0x5000,0x6000); the
    copy to 0x2800 runs over the parent's stack and the byte at 0x3000, in
    the parent's stack, changes from 0x30 to 0x10. *)
Lemma writes_outside_child_stack_counterexample :
  (return_value stray_copy_run = Some 9
   /\ copies (calls (outcome_kernel stray_copy_run)) = [(0x0800, 0x2800, 0x1800)]
   /\ (exists c, final_child stray_copy_run = Some c
                 /\ stack_base (cmn c) = 0x1000
                 /\ adj_stack_ptr (cmn c) = 0x2000
                 /\ ~ in_stack_region (cmn c) 0x0800)
   /\ memory (sample_kernel 0x4000 0x1000) 0x0800 = 0x08
   /\ memory (outcome_kernel stray_copy_run) 0x0800 = 0x28)
  /\ (return_value overrun_run = Some 9
      /\ in_stack_region (parent_tcb (sample_kernel 0x4000 0x1000)) 0x3000
      /\ memory (sample_kernel 0x4000 0x1000) 0x3000 = 0x30
      /\ memory (outcome_kernel overrun_run) 0x3000 = 0x10).
Proof.
  split.
  - split; [vm_compute; reflexivity|].
    split; [vm_compute; reflexivity|].
    split.
    + eexists. split; [vm_compute; reflexivity|].
      split; [reflexivity|]. split; [reflexivity|].
      unfold in_stack_region, stack_base. vm_compute. intuition congruence.
    + split; vm_compute; reflexivity.
  - split; [vm_compute; reflexivity|].
    split; [unfold in_stack_region, stack_base; vm_compute; intuition congruence|].
    split; vm_compute; reflexivity.
Qed.

(** Whichever way a call ends, the parent's TCB is what it was. *)
Lemma up_vfork_parent_tcb cfg env context k :
  parent_tcb (outcome_kernel (up_vfork cfg env context k)) = parent_tcb k.
Proof.
  destruct (task_vforksetup env (entry_point context)) as [c0|] eqn:Hsetup.
  2:{ now rewrite (up_vfork_setup_fails _ _ _ _ Hsetup). }
  destruct (up_vfork_paths cfg env context k c0 Hsetup)
    as (ret & c1 & Hstack & [(Hret & Hrun) | [(-> & Hd & Hsp & Hrun) | (-> & Hreach)]]).
  - now rewrite Hrun.
  - rewrite Hrun. cbn [outcome_kernel].
    now destruct (heapinfo_state cfg c1
                    (kernel_after_create_stack cfg context k c0 c1)) as (-> & _).
  - destruct (up_vfork_success _ _ _ _ _ _ Hreach)
      as (r & k' & Hrun & _ & Hp & _).
    now rewrite Hrun.
Qed.

(** Under the conditions on the captured stack pointer and the allocator, a
    byte of memory changes only on a call that reaches the transfer, and only
    inside the stack region the allocator reported for the child. *)
Lemma up_vfork_memory_frame cfg env context k :
  parent_stack_ok cfg (parent_tcb k) ->
  stack_base (parent_tcb k) <= sp context <= adj_stack_ptr (parent_tcb k) ->
  (forall c0 c1,
      task_vforksetup env (entry_point context) = Some c0 ->
      up_create_stack env c0 (parent_stacksize cfg (parent_tcb k))
        (parent_ttype cfg (parent_tcb k)) = (OK, c1) ->
      stack_allocated cfg (parent_stacksize cfg (parent_tcb k)) (cmn c1)) ->
  forall a,
    memory (outcome_kernel (up_vfork cfg env context k)) a = memory k a
    \/ exists c0 c1,
         task_vforksetup env (entry_point context) = Some c0
         /\ up_create_stack env c0 (parent_stacksize cfg (parent_tcb k))
              (parent_ttype cfg (parent_tcb k)) = (OK, c1)
         /\ final_child (up_vfork cfg env context k)
            = Some (transfer_context cfg (parent_tcb k) context c1)
         /\ in_stack_region (cmn c1) a.
Proof.
  intros (Ha & Hsz & Hbase & Htop & Hpad) [Hlo Hhi] Halloc.
  destruct (task_vforksetup env (entry_point context)) as [c0|] eqn:Hsetup.
  2:{ rewrite (up_vfork_setup_fails _ _ _ _ Hsetup). cbn. auto. }
  destruct (up_vfork_paths cfg env context k c0 Hsetup)
    as (ret & c1 & Hstack & [(Hret & Hrun) | [(-> & Hd & Hsp & Hrun) | (-> & Hreach)]]).
  - rewrite Hrun. cbn. auto.
  - rewrite Hrun. cbn [outcome_kernel].
    destruct (heapinfo_state cfg c1 (kernel_after_create_stack cfg context k c0 c1))
      as (_ & _ & Hm).
    rewrite Hm. cbn. auto.
  - destruct (up_vfork_success _ _ _ _ _ _ Hreach)
      as (r & k' & Hrun & _ & _ & Hchild & Hmem & _).
    unfold final_child. rewrite Hrun. cbn [outcome_kernel].
    intros a. rewrite Hmem, Hchild.
    destruct (Halloc c0 c1 eq_refl Hstack) as (Hcb & Hct & Hcs).
    unfold parent_stacksize in Hcs. rewrite wrap_small in Hcs by lia.
    unfold stack_base in *.
    assert (Hn : stack_utilization (parent_tcb k) context
                 = adj_stack_ptr (parent_tcb k) - sp context)
      by (unfold stack_utilization; apply sub32_exact; lia).
    assert (Hnew : new_sp (parent_tcb k) context c1
                   = adj_stack_ptr (cmn c1)
                     - (adj_stack_ptr (parent_tcb k) - sp context))
      by (unfold new_sp; rewrite Hn; apply sub32_exact; lia).
    destruct (Z_le_dec (new_sp (parent_tcb k) context c1) a) as [H1|H1];
      [destruct (Z_lt_dec a (new_sp (parent_tcb k) context c1
                             + stack_utilization (parent_tcb k) context)) as [H2|H2]|].
    + right. exists c0, c1. split; [reflexivity|]. split; [exact Hstack|].
      split; [reflexivity|]. unfold in_stack_region, stack_base. lia.
    + left. apply memcpy_bytes_outside. lia.
    + left. apply memcpy_bytes_outside. lia.
Qed.

(** C9 (amended): take a call whose captured stack pointer lies in the
    parent's stack, between its base and its top, and for which the allocator
    reports the child's stack region for the size requested, apart from the
    parent's stack and from the places where the parent's TCB and the
    captured context record lie.  Whichever way the call ends, every byte of
    memory either keeps its value or lies in the child's stack region; so the
    bytes of the parent's TCB, of the captured context record and of the
    parent's stack keep their values; and no field of the parent's TCB is
    stored to. *)
Theorem writes_confined_to_child cfg env context k (parent_at context_at : Z * Z) :
  parent_stack_ok cfg (parent_tcb k) ->
  stack_base (parent_tcb k) <= sp context <= adj_stack_ptr (parent_tcb k) ->
  (forall c0 c1,
      task_vforksetup env (entry_point context) = Some c0 ->
      up_create_stack env c0 (parent_stacksize cfg (parent_tcb k))
        (parent_ttype cfg (parent_tcb k)) = (OK, c1) ->
      stack_allocated cfg (parent_stacksize cfg (parent_tcb k)) (cmn c1)
      /\ apart_from_stack parent_at (cmn c1)
      /\ apart_from_stack context_at (cmn c1)
      /\ apart_from_stack (stack_base (parent_tcb k),
                           adj_stack_size (parent_tcb k)) (cmn c1)) ->
  (forall a,
      memory (outcome_kernel (up_vfork cfg env context k)) a = memory k a
      \/ exists c, final_child (up_vfork cfg env context k) = Some c
                   /\ in_stack_region (cmn c) a)
  /\ (forall a,
        occupies parent_at a \/ occupies context_at a
        \/ in_stack_region (parent_tcb k) a ->
        memory (outcome_kernel (up_vfork cfg env context k)) a = memory k a)
  /\ parent_tcb (outcome_kernel (up_vfork cfg env context k)) = parent_tcb k.
Proof.
  intros Hok Hsp Halloc.
  assert (Hframe := up_vfork_memory_frame cfg env context k Hok Hsp
                      (fun c0 c1 H0 H1 => proj1 (Halloc c0 c1 H0 H1))).
  split; [|split; [|apply up_vfork_parent_tcb]].
  - intros a. destruct (Hframe a) as [Hsame | (c0 & c1 & _ & _ & Hc & Hin)].
    + now left.
    + right. eexists. split; [exact Hc|]. exact Hin.
  - intros a Hobj. destruct (Hframe a) as [Hsame | (c0 & c1 & H0 & H1 & _ & Hin)].
    + exact Hsame.
    + exfalso. destruct (Halloc c0 c1 H0 H1) as (_ & Hp & Hx & Hs).
      unfold in_stack_region in Hin.
      unfold occupies, apart_from_stack, in_stack_region in *.
      cbn [fst snd] in *. lia.
Qed.

Lemma writes_confined_to_child_witness :
  memory (outcome_kernel scenario_run) 0x1ED8 = 0x1E
  /\ memory (outcome_kernel scenario_run) 0x1F00 = 0x1F
  /\ parent_tcb (outcome_kernel scenario_run) = sample_parent 0x2000 0x1000.
Proof.
  destruct (writes_confined_to_child (sample_config true)
              (sample_env true OK 0x3000 (inl 9))
              (sample_context 0x1F80 0x1F00) (sample_kernel 0x2000 0x1000)
              (0x0100, 0x80) (0x1ED8, 0x28))
    as (_ & Hobj & Hparent).
  - unfold parent_stack_ok, stack_base. concrete.
  - unfold stack_base. concrete.
  - intros c0 c1 Hsetup Hstack.
    injection Hsetup as <-. injection Hstack as <-.
    unfold stack_allocated, apart_from_stack, stack_base. cbn.
    repeat split; lia.
  - split; [|split; [|exact Hparent]].
    + apply Hobj. right; left. unfold occupies. cbn. lia.
    + apply Hobj. right; right. unfold in_stack_region, stack_base. cbn. lia.
Defined.

(** ** Saved registers *)

(** C8: on every call that reaches the transfer, the child's register save
    area keeps its length and every slot other than those of r4-r10, the
    frame pointer and the stack pointer holds what it held before the
    transfer.  In particular, when REG_R0 is none of the assigned slots and
    generic set-up left it zero, the child's R0 is zero when the child is
    handed to task_vforkstart. *)
Theorem only_listed_slots_written cfg env context k c0 c1 :
  reaches_transfer cfg env context k c0 c1 ->
  exists ret k' c,
    up_vfork cfg env context k = Returned ret k'
    /\ child_tcb k' = Some c
    /\ length (regs (xcp (cmn c))) = length (regs (xcp (cmn c1)))
    /\ (forall i : nat,
           ~ In i (written_slots cfg) ->
           regs (xcp (cmn c)) !! i = regs (xcp (cmn c1)) !! i)
    /\ (~ In (REG_R0 cfg) (written_slots cfg) ->
        regs (xcp (cmn c1)) !! REG_R0 cfg = Some 0 ->
        regs (xcp (cmn c)) !! REG_R0 cfg = Some 0).
Proof.
  intros Hreach.
  destruct (up_vfork_success _ _ _ _ _ _ Hreach)
    as (ret & k' & Hrun & _ & _ & Hchild & _ & _).
  exists ret, k', (transfer_context cfg (parent_tcb k) context c1).
  split; [exact Hrun|]. split; [exact Hchild|].
  rewrite transfer_context_regs.
  split; [apply length_store_all|].
  assert (Hframe : forall i : nat,
             ~ In i (written_slots cfg) ->
             store_all (reg_assignments cfg context
                          (new_fp cfg (parent_tcb k) context c1)
                          (new_sp (parent_tcb k) context c1))
                       (regs (xcp (cmn c1))) !! i
             = regs (xcp (cmn c1)) !! i).
  { intros i Hi. apply store_all_frame.
    now rewrite reg_assignments_slots. }
  split; [exact Hframe|].
  intros Hr0 Hzero. rewrite Hframe by exact Hr0. exact Hzero.
Qed.

Lemma only_listed_slots_written_witness :
  exists ret k' c,
    up_vfork (sample_config true) (sample_env true OK 0x3000 (inl 9))
             (sample_context 0x1F80 0x1F00) (sample_kernel 0x2000 0x1000)
    = Returned ret k'
    /\ child_tcb k' = Some c
    /\ regs (xcp (cmn c)) !! 10%nat = Some 0.
Proof.
  destruct (only_listed_slots_written (sample_config true)
              (sample_env true OK 0x3000 (inl 9))
              (sample_context 0x1F80 0x1F00) (sample_kernel 0x2000 0x1000)
              fresh_child scenario_child)
    as (ret & k' & c & Hrun & Hc & _ & _ & Hr0).
  - unfold reaches_transfer. concrete.
  - exists ret, k', c. split; [exact Hrun|]. split; [exact Hc|].
    apply Hr0; [|reflexivity].
    vm_compute. intuition congruence.
Defined.

(** ** System-call return records *)

Lemma copy_syscall_same arch src dst :
  same_syscall_record arch src (copy_syscall arch src dst).
Proof.
  unfold same_syscall_record.
  destruct arch; cbn; repeat split; intros; try reflexivity; discriminate.
Qed.

(** The loop copies the records index .. index + remaining - 1 and leaves
    the others. *)
Lemma syscall_loop_spec arch remaining :
  forall (index : nat) (psys csys : list xcpt_syscall_s),
    (index + remaining <= length psys)%nat ->
    (index + remaining <= length csys)%nat ->
    length (syscall_loop arch remaining index psys csys) = length csys
    /\ (forall i : nat,
           (index <= i < index + remaining)%nat ->
           exists src dst,
             psys !! i = Some src /\ csys !! i = Some dst
             /\ syscall_loop arch remaining index psys csys !! i
                = Some (copy_syscall arch src dst))
    /\ (forall i : nat,
           ~ (index <= i < index + remaining)%nat ->
           syscall_loop arch remaining index psys csys !! i = csys !! i).
Proof.
  induction remaining as [|n IH]; intros index psys csys Hp Hc.
  - cbn. split; [reflexivity|]. split; [intros i Hi; lia | reflexivity].
  - cbn [syscall_loop].
    destruct (lookup_lt_is_Some_2 psys index ltac:(lia)) as [src Hsrc].
    destruct (lookup_lt_is_Some_2 csys index ltac:(lia)) as [dst Hdst].
    rewrite Hsrc, Hdst.
    destruct (IH (S index) psys (<[index := copy_syscall arch src dst]> csys))
      as (Hlen & Hin & Hout).
    { lia. }
    { rewrite length_insert. lia. }
    rewrite length_insert in Hlen.
    split; [exact Hlen|]. split.
    + intros i Hi. destruct (Nat.eq_dec i index) as [->|Hne].
      * exists src, dst. split; [exact Hsrc|]. split; [exact Hdst|].
        rewrite Hout by lia.
        apply list_lookup_insert_eq. lia.
      * destruct (Hin i ltac:(lia)) as (s' & d' & Hs' & Hd' & Hres).
        rewrite list_lookup_insert_ne in Hd' by lia.
        exists s', d'. auto.
    + intros i Hi. rewrite Hout by lia.
      apply list_lookup_insert_ne. lia.
Qed.

(** C6: on a build with CONFIG_LIB_SYSCALL, a call that reaches the transfer
    with N pending system calls in the parent, N within both arrays: if
    N >= 1 the child's count is N and each of the records 0 .. N-1 of the
    child agrees with the parent's record on every field the platform's
    record has, the records from N on being left alone; if N is 0 the
    child's count and records are left as they were. *)
Theorem syscall_records_replicated cfg env context k c0 c1 arch :
  reaches_transfer cfg env context k c0 c1 ->
  CONFIG_LIB_SYSCALL cfg = Some arch ->
  0 <= nsyscalls (xcp (parent_tcb k)) ->
  (Z.to_nat (nsyscalls (xcp (parent_tcb k)))
   <= length (syscall (xcp (parent_tcb k))))%nat ->
  (Z.to_nat (nsyscalls (xcp (parent_tcb k)))
   <= length (syscall (xcp (cmn c1))))%nat ->
  exists ret k' c,
    up_vfork cfg env context k = Returned ret k'
    /\ child_tcb k' = Some c
    /\ (1 <= nsyscalls (xcp (parent_tcb k)) ->
        nsyscalls (xcp (cmn c)) = nsyscalls (xcp (parent_tcb k))
        /\ (forall i : nat,
               (i < Z.to_nat (nsyscalls (xcp (parent_tcb k))))%nat ->
               exists src rec,
                 syscall (xcp (parent_tcb k)) !! i = Some src
                 /\ syscall (xcp (cmn c)) !! i = Some rec
                 /\ same_syscall_record arch src rec)
        /\ (forall i : nat,
               (Z.to_nat (nsyscalls (xcp (parent_tcb k))) <= i)%nat ->
               syscall (xcp (cmn c)) !! i = syscall (xcp (cmn c1)) !! i))
    /\ (nsyscalls (xcp (parent_tcb k)) = 0 ->
        nsyscalls (xcp (cmn c)) = nsyscalls (xcp (cmn c1))
        /\ syscall (xcp (cmn c)) = syscall (xcp (cmn c1))).
Proof.
  intros Hreach Hcfg Hn0 Hplen Hclen.
  destruct (up_vfork_success _ _ _ _ _ _ Hreach)
    as (ret & k' & Hrun & _ & _ & Hchild & _ & _).
  exists ret, k', (transfer_context cfg (parent_tcb k) context c1).
  split; [exact Hrun|]. split; [exact Hchild|].
  unfold transfer_context, replicate_syscalls. rewrite Hcfg.
  cbn [child_with_xcp cmn set_xcp xcp].
  split.
  - intros Hn. replace (0 <? nsyscalls (xcp (parent_tcb k))) with true
      by (symmetry; apply Z.ltb_lt; lia).
    cbn [set_nsyscalls set_syscall set_regs nsyscalls syscall regs].
    split; [reflexivity|].
    destruct (syscall_loop_spec arch (Z.to_nat (nsyscalls (xcp (parent_tcb k))))
                O (syscall (xcp (parent_tcb k))) (syscall (xcp (cmn c1))))
      as (_ & Hin & Hout); [lia | lia |].
    split.
    + intros i Hi. destruct (Hin i ltac:(lia)) as (src & dst & Hs & _ & Hres).
      exists src, (copy_syscall arch src dst).
      split; [exact Hs|]. split; [exact Hres|]. apply copy_syscall_same.
    + intros i Hi. apply Hout. lia.
  - intros Hn. rewrite Hn. cbn. split; reflexivity.
Qed.

Lemma syscall_records_replicated_witness :
  exists ret k' c,
    up_vfork (sample_config true) (sample_env true OK 0x3000 (inl 9))
             (sample_context 0x1F80 0x1F00) (sample_kernel 0x2000 0x1000)
    = Returned ret k'
    /\ child_tcb k' = Some c
    /\ nsyscalls (xcp (cmn c)) = 2
    /\ exists rec, syscall (xcp (cmn c)) !! 1%nat = Some rec
                   /\ sysreturn rec = 0x8101 /\ excreturn rec = 0xFFFFFFF9.
Proof.
  destruct (syscall_records_replicated (sample_config true)
              (sample_env true OK 0x3000 (inl 9))
              (sample_context 0x1F80 0x1F00) (sample_kernel 0x2000 0x1000)
              fresh_child scenario_child CortexM)
    as (ret & k' & c & Hrun & Hc & Hcopy & _).
  - unfold reaches_transfer. concrete.
  - reflexivity.
  - vm_compute. congruence.
  - vm_compute. lia.
  - vm_compute. lia.
  - exists ret, k', c. split; [exact Hrun|]. split; [exact Hc|].
    destruct Hcopy as (Hn & Hrecs & _); [vm_compute; congruence|].
    split; [exact Hn|].
    destruct (Hrecs 1%nat) as (src & rec & Hsrc & Hrec & Hs & _ & He);
      [vm_compute; lia|].
    exists rec. split; [exact Hrec|].
    injection Hsrc as <-. split.
    + symmetry. exact Hs.
    + symmetry. apply He. reflexivity.
Defined.

(** ** Further properties of up_vfork *)

(** Clearing bit 0: a & ~1 is a rounded down to an even number. *)
Lemma land_lnot_1 a : Z.land a (Z.lnot 1) = 2 * (a / 2).
Proof.
  rewrite <- Z.ldiff_land.
  change 1 with (Z.ones 1) at 1.
  rewrite Z.ldiff_ones_r by lia.
  rewrite Z.shiftr_div_pow2, Z.shiftl_mul_pow2 by lia.
  change (2 ^ 1) with 2. lia.
Qed.

(** Every call starts with the call to task_vforksetup. *)
Lemma up_vfork_first_call cfg env context k :
  exists rest,
    calls (outcome_kernel (up_vfork cfg env context k))
    = calls k ++ Ev_vforksetup (entry_point context) :: rest.
Proof.
  destruct (task_vforksetup env (entry_point context)) as [c0|] eqn:Hsetup.
  2:{ rewrite (up_vfork_setup_fails _ _ _ _ Hsetup). now exists []. }
  destruct (up_vfork_paths cfg env context k c0 Hsetup)
    as (ret & c1 & Hstack & [(Hret & Hrun) | [(-> & Hd & Hsp & Hrun) | (-> & Hreach)]]).
  - rewrite Hrun. eexists. cbn. rewrite <- !app_assoc. reflexivity.
  - rewrite Hrun. cbn [outcome_kernel]. rewrite heapinfo_calls.
    eexists. cbn. rewrite <- !app_assoc. reflexivity.
  - destruct (up_vfork_success _ _ _ _ _ _ Hreach)
      as (r & k' & Hrun & _ & _ & _ & _ & Hcalls).
    rewrite Hrun. cbn [outcome_kernel]. rewrite Hcalls.
    eexists. unfold transfer_events. reflexivity.
Qed.

(** X1: whatever the outcome, the first thing a call does is to call
    task_vforksetup, and the entry point it passes is the captured return
    address with bit 0 (the Thumb bit) cleared: an even address, equal to
    lr or to lr - 1. *)
Theorem entry_point_is_lr_without_thumb_bit cfg env context k :
  exists rest,
    calls (outcome_kernel (up_vfork cfg env context k))
    = calls k ++ Ev_vforksetup (entry_point context) :: rest
    /\ entry_point context = 2 * (lr context / 2)
    /\ entry_point context mod 2 = 0
    /\ 0 <= lr context - entry_point context <= 1.
Proof.
  destruct (up_vfork_first_call cfg env context k) as (rest & Hcalls).
  exists rest. split; [exact Hcalls|].
  unfold entry_point. rewrite land_lnot_1.
  split; [reflexivity|].
  pose proof (Z.div_mod (lr context) 2 ltac:(lia)) as Hdm.
  pose proof (Z.mod_pos_bound (lr context) 2 ltac:(lia)) as Hm.
  split; [|lia].
  rewrite Z.mul_comm. apply Z.mod_mul. lia.
Qed.

(** After a sequence of assignments a slot of the array holds what the last
    assignment naming it stored. *)
Lemma store_all_last_assignment ws :
  forall (rs : list Z) (i : nat) (v : Z),
    (i < length rs)%nat ->
    last_assignment ws i = Some v ->
    store_all ws rs !! i = Some v.
Proof.
  induction ws as [|w ws IH]; intros rs i v Hlen Hlast.
  - discriminate.
  - cbn [last_assignment] in Hlast.
    change (w :: ws) with ([w] ++ ws). rewrite store_all_app.
    destruct (last_assignment ws i) as [v'|] eqn:Hrest.
    + injection Hlast as <-. apply IH; [|exact Hrest].
      now rewrite length_store_all.
    + destruct (Nat.eqb_spec (fst w) i) as [Heq|Hne]; [|discriminate].
      injection Hlast as <-.
      assert (Hnot : ~ In i (map fst ws)).
      { clear -Hrest. induction ws as [|w' ws IH]; [tauto|].
        cbn [last_assignment] in Hrest.
        destruct (last_assignment ws i); [discriminate|].
        destruct (Nat.eqb_spec (fst w') i) as [|Hne]; [discriminate|].
        cbn. intros [H|H]; [congruence | now apply IH]. }
      rewrite store_all_frame by exact Hnot.
      unfold store_all. cbn. subst i. now apply list_lookup_insert_eq.
Qed.

(** On a call that reaches the transfer every slot of the child's register
    save area that some assignment of lines 221-229 names holds the value of
    the last such assignment. *)
Lemma up_vfork_saved_slots cfg env context k c0 c1 :
  reaches_transfer cfg env context k c0 c1 ->
  exists ret k' c,
    up_vfork cfg env context k = Returned ret k'
    /\ child_tcb k' = Some c
    /\ forall (i : nat) (v : Z),
         (i < length (regs (xcp (cmn c1))))%nat ->
         last_assignment
           (reg_assignments cfg context (new_fp cfg (parent_tcb k) context c1)
                            (new_sp (parent_tcb k) context c1)) i = Some v ->
         regs (xcp (cmn c)) !! i = Some v.
Proof.
  intros Hreach.
  destruct (up_vfork_success _ _ _ _ _ _ Hreach)
    as (ret & k' & Hrun & _ & _ & Hchild & _ & _).
  exists ret, k', (transfer_context cfg (parent_tcb k) context c1).
  split; [exact Hrun|]. split; [exact Hchild|].
  intros i v Hlen Hlast.
  rewrite transfer_context_regs. now apply store_all_last_assignment.
Qed.

Ltac last_slot :=
  repeat (cbn [last_assignment reg_assignments fst snd];
          match goal with
          | |- context [Nat.eqb ?a ?b] => destruct (Nat.eqb_spec a b)
          end);
  first [reflexivity | exfalso; intuition congruence].

(** X2: when the nine slots REG_R4 .. REG_R10, REG_FP, REG_SP are pairwise
    different and inside the save area, a call that reaches the transfer
    leaves in the child's save area the captured r4-r10 unchanged, each in
    its own slot, beside the new frame and stack pointers. *)
Theorem callee_saved_registers_copied cfg env context k c0 c1 :
  reaches_transfer cfg env context k c0 c1 ->
  List.NoDup (written_slots cfg) ->
  (forall i : nat, In i (written_slots cfg) ->
                   (i < length (regs (xcp (cmn c1))))%nat) ->
  exists ret k' c,
    up_vfork cfg env context k = Returned ret k'
    /\ child_tcb k' = Some c
    /\ regs (xcp (cmn c)) !! REG_R4 cfg = Some (r4 context)
    /\ regs (xcp (cmn c)) !! REG_R5 cfg = Some (r5 context)
    /\ regs (xcp (cmn c)) !! REG_R6 cfg = Some (r6 context)
    /\ regs (xcp (cmn c)) !! REG_R7 cfg = Some (r7 context)
    /\ regs (xcp (cmn c)) !! REG_R8 cfg = Some (r8 context)
    /\ regs (xcp (cmn c)) !! REG_R9 cfg = Some (r9 context)
    /\ regs (xcp (cmn c)) !! REG_R10 cfg = Some (r10 context)
    /\ regs (xcp (cmn c)) !! REG_FP cfg
       = Some (new_fp cfg (parent_tcb k) context c1)
    /\ regs (xcp (cmn c)) !! REG_SP cfg
       = Some (new_sp (parent_tcb k) context c1).
Proof.
  intros Hreach Hnd Hlen.
  destruct (up_vfork_saved_slots _ _ _ _ _ _ Hreach)
    as (ret & k' & c & Hrun & Hchild & Hslot).
  exists ret, k', c. split; [exact Hrun|]. split; [exact Hchild|].
  unfold written_slots in Hnd, Hlen.
  repeat (apply List.NoDup_cons_iff in Hnd as [? Hnd]).
  cbn [In] in *.
  repeat split; (apply Hslot; [apply Hlen; tauto | last_slot]).
Qed.

Lemma callee_saved_registers_copied_witness :
  exists ret k' c,
    up_vfork sample_config_arm (sample_env true OK 0x3000 (inl 9))
             (sample_context 0x1F80 0x1F00) (sample_kernel 0x2000 0x1000)
    = Returned ret k'
    /\ child_tcb k' = Some c
    /\ regs (xcp (cmn c)) !! 7%nat = Some 0x77
    /\ regs (xcp (cmn c)) !! 11%nat = Some 0x3F80.
Proof.
  destruct (callee_saved_registers_copied sample_config_arm
              (sample_env true OK 0x3000 (inl 9))
              (sample_context 0x1F80 0x1F00) (sample_kernel 0x2000 0x1000)
              fresh_child scenario_child)
    as (ret & k' & c & Hrun & Hc & _ & _ & _ & H7 & _ & _ & _ & Hfp & _).
  - unfold reaches_transfer. concrete.
  - vm_compute. repeat constructor; cbn; intuition congruence.
  - intros i Hi. vm_compute in Hi. vm_compute. intuition (subst; lia).
  - exists ret, k', c. split; [exact Hrun|]. split; [exact Hc|].
    split; [exact H7 | exact Hfp].
Defined.

(** X3: when REG_FP is the slot of r7 (the Thumb frame pointer) and the
    other eight slots are pairwise different, the frame-pointer assignment of
    line 228 overwrites the r7 assignment of line 224: the slot holds the new
    frame pointer, not the captured r7, while r4-r6 and r8-r10 are copied
    unchanged. *)
Theorem thumb_frame_pointer_overrides_r7 cfg env context k c0 c1 :
  reaches_transfer cfg env context k c0 c1 ->
  REG_FP cfg = REG_R7 cfg ->
  List.NoDup [ REG_R4 cfg; REG_R5 cfg; REG_R6 cfg; REG_R8 cfg; REG_R9 cfg;
               REG_R10 cfg; REG_FP cfg; REG_SP cfg ] ->
  (forall i : nat, In i (written_slots cfg) ->
                   (i < length (regs (xcp (cmn c1))))%nat) ->
  exists ret k' c,
    up_vfork cfg env context k = Returned ret k'
    /\ child_tcb k' = Some c
    /\ regs (xcp (cmn c)) !! REG_R7 cfg
       = Some (new_fp cfg (parent_tcb k) context c1)
    /\ regs (xcp (cmn c)) !! REG_R4 cfg = Some (r4 context)
    /\ regs (xcp (cmn c)) !! REG_R5 cfg = Some (r5 context)
    /\ regs (xcp (cmn c)) !! REG_R6 cfg = Some (r6 context)
    /\ regs (xcp (cmn c)) !! REG_R8 cfg = Some (r8 context)
    /\ regs (xcp (cmn c)) !! REG_R9 cfg = Some (r9 context)
    /\ regs (xcp (cmn c)) !! REG_R10 cfg = Some (r10 context)
    /\ regs (xcp (cmn c)) !! REG_SP cfg
       = Some (new_sp (parent_tcb k) context c1).
Proof.
  intros Hreach Halias Hnd Hlen.
  destruct (up_vfork_saved_slots _ _ _ _ _ _ Hreach)
    as (ret & k' & c & Hrun & Hchild & Hslot).
  exists ret, k', c. split; [exact Hrun|]. split; [exact Hchild|].
  unfold written_slots in Hlen.
  repeat (apply List.NoDup_cons_iff in Hnd as [? Hnd]).
  cbn [In] in *.
  repeat split; (apply Hslot; [apply Hlen; tauto | last_slot]).
Qed.

Lemma thumb_frame_pointer_overrides_r7_witness :
  exists ret k' c,
    up_vfork (sample_config true) (sample_env true OK 0x3000 (inl 9))
             (sample_context 0x1F80 0x1F00) (sample_kernel 0x2000 0x1000)
    = Returned ret k'
    /\ child_tcb k' = Some c
    /\ regs (xcp (cmn c)) !! 5%nat = Some 0x3F80
    /\ r7 (sample_context 0x1F80 0x1F00) = 0x77.
Proof.
  destruct (thumb_frame_pointer_overrides_r7 (sample_config true)
              (sample_env true OK 0x3000 (inl 9))
              (sample_context 0x1F80 0x1F00) (sample_kernel 0x2000 0x1000)
              fresh_child scenario_child)
    as (ret & k' & c & Hrun & Hc & H7 & _).
  - unfold reaches_transfer. concrete.
  - reflexivity.
  - vm_compute. repeat constructor; cbn; intuition congruence.
  - intros i Hi. vm_compute in Hi. vm_compute. intuition (subst; lia).
  - exists ret, k', c. split; [exact Hrun|]. split; [exact Hc|].
    split; [exact H7 | reflexivity].
Defined.

(** X4: when the captured stack pointer lies in the parent's stack, the
    allocator reported the child's region for the size requested, and the
    child's region does not meet the live part [sp, parentTop) of the
    parent's stack, then after the call the child's stack holds a copy of the
    parent's live stack, byte for byte at the same depth below the stack top,
    and the parent's live stack is unchanged. *)
Theorem live_stack_copied_at_same_depth cfg env context k c0 c1 :
  reaches_transfer cfg env context k c0 c1 ->
  parent_stack_ok cfg (parent_tcb k) ->
  stack_allocated cfg (parent_stacksize cfg (parent_tcb k)) (cmn c1) ->
  stack_base (parent_tcb k) <= sp context <= adj_stack_ptr (parent_tcb k) ->
  adj_stack_ptr (cmn c1) <= sp context
  \/ adj_stack_ptr (parent_tcb k) <= stack_base (cmn c1) ->
  exists ret k',
    up_vfork cfg env context k = Returned ret k'
    /\ forall d,
         0 < d <= adj_stack_ptr (parent_tcb k) - sp context ->
         memory k' (adj_stack_ptr (cmn c1) - d)
         = memory k (adj_stack_ptr (parent_tcb k) - d)
         /\ memory k' (adj_stack_ptr (parent_tcb k) - d)
            = memory k (adj_stack_ptr (parent_tcb k) - d).
Proof.
  intros Hreach (Ha & Hsz & Hbase & Htop & Hpad) (Hcb & Hct & Hcs) [Hlo Hhi] Hdisj.
  destruct (up_vfork_success _ _ _ _ _ _ Hreach)
    as (ret & k' & Hrun & _ & _ & _ & Hmem & _).
  exists ret, k'. split; [exact Hrun|].
  unfold parent_stacksize in Hcs. rewrite wrap_small in Hcs by lia.
  unfold stack_base in *.
  assert (Hn : stack_utilization (parent_tcb k) context
               = adj_stack_ptr (parent_tcb k) - sp context)
    by (unfold stack_utilization; apply sub32_exact; lia).
  assert (Hnew : new_sp (parent_tcb k) context c1
                 = adj_stack_ptr (cmn c1)
                   - (adj_stack_ptr (parent_tcb k) - sp context))
    by (unfold new_sp; rewrite Hn; apply sub32_exact; lia).
  intros d Hd. rewrite Hmem, Hn, Hnew. split.
  - unfold memcpy_bytes.
    replace (_ <=? _) with true by (symmetry; apply Z.leb_le; lia).
    replace (_ <? _) with true by (symmetry; apply Z.ltb_lt; lia).
    cbn [andb]. f_equal. lia.
  - apply memcpy_bytes_outside. lia.
Qed.

Lemma live_stack_copied_at_same_depth_witness :
  exists ret k',
    up_vfork (sample_config true) (sample_env true OK 0x3000 (inl 9))
             (sample_context 0x1F80 0x1F00) (sample_kernel 0x2000 0x1000)
    = Returned ret k'
    /\ memory k' (0x4000 - 0x100) = 0x1F.
Proof.
  destruct (live_stack_copied_at_same_depth (sample_config true)
              (sample_env true OK 0x3000 (inl 9))
              (sample_context 0x1F80 0x1F00) (sample_kernel 0x2000 0x1000)
              fresh_child scenario_child)
    as (ret & k' & Hrun & Hcopy).
  - unfold reaches_transfer. concrete.
  - unfold parent_stack_ok, stack_base. concrete.
  - unfold stack_allocated, stack_base. concrete.
  - unfold stack_base. concrete.
  - right. vm_compute. congruence.
  - exists ret, k'. split; [exact Hrun|].
    destruct (Hcopy 0x100) as [Hbyte _]; [vm_compute; intuition congruence|].
    exact Hbyte.
Defined.

(** X5: under the same conditions on the stack pointer and the allocator,
    with the padded window not wrapping, a captured frame pointer between
    the captured stack pointer and the parent's stack top is moved by the
    same displacement as the stack pointer: the child's saved frame pointer
    minus its saved stack pointer equals capturedFp - capturedSp, and the
    saved frame pointer lies between the saved stack pointer and the child's
    stack top. *)
Theorem frame_and_stack_pointer_move_together cfg env context k c0 c1 :
  reaches_transfer cfg env context k c0 c1 ->
  parent_stack_ok cfg (parent_tcb k) ->
  STACK_ALIGNMENT cfg - 1 <= stack_base (parent_tcb k) ->
  stack_allocated cfg (parent_stacksize cfg (parent_tcb k)) (cmn c1) ->
  stack_base (parent_tcb k) <= sp context ->
  sp context <= fp context <= adj_stack_ptr (parent_tcb k) ->
  (REG_FP cfg < length (regs (xcp (cmn c1))))%nat ->
  (REG_SP cfg < length (regs (xcp (cmn c1))))%nat ->
  REG_FP cfg <> REG_SP cfg ->
  exists ret k' c childFp childSp,
    up_vfork cfg env context k = Returned ret k'
    /\ child_tcb k' = Some c
    /\ regs (xcp (cmn c)) !! REG_FP cfg = Some childFp
    /\ regs (xcp (cmn c)) !! REG_SP cfg = Some childSp
    /\ childFp - childSp = fp context - sp context
    /\ childFp - fp context = adj_stack_ptr (cmn c) - adj_stack_ptr (parent_tcb k)
    /\ childSp <= childFp <= adj_stack_ptr (cmn c).
Proof.
  intros Hreach Hok Hroom (Hcb & Hct & Hcs) Hlo [Hfplo Hfphi] Hlfp Hlsp Hne.
  destruct (up_vfork_saved_pointers _ _ _ _ _ _ Hreach)
    as (ret & k' & c & Hrun & Hchild & Hptr & _ & Hsp & Hfp).
  exists ret, k', c, (new_fp cfg (parent_tcb k) context c1),
         (new_sp (parent_tcb k) context c1).
  split; [exact Hrun|]. split; [exact Hchild|].
  split; [now apply Hfp|]. split; [now apply Hsp|].
  assert (Hin : fp_in_window cfg (parent_tcb k) context = true).
  { apply fp_in_window_interval; [exact Hok | exact Hroom |].
    destruct Hok as (Ha & Hsz & Hbase & Htop & Hpad). unfold stack_base in *. lia. }
  destruct Hok as (Ha & Hsz & Hbase & Htop & Hpad).
  unfold parent_stacksize in Hcs. rewrite wrap_small in Hcs by lia.
  unfold stack_base in *. rewrite Hptr.
  unfold new_fp, new_sp, stack_utilization. rewrite Hin.
  rewrite !(sub32_exact (adj_stack_ptr (parent_tcb k))) by lia.
  rewrite !sub32_exact by lia. lia.
Qed.

Lemma frame_and_stack_pointer_move_together_witness :
  exists ret k' c childFp childSp,
    up_vfork (sample_config true) (sample_env true OK 0x3000 (inl 9))
             (sample_context 0x1F80 0x1F00) (sample_kernel 0x2000 0x1000)
    = Returned ret k'
    /\ child_tcb k' = Some c
    /\ regs (xcp (cmn c)) !! 5%nat = Some childFp
    /\ regs (xcp (cmn c)) !! 0%nat = Some childSp
    /\ childFp - childSp = 0x80.
Proof.
  destruct (frame_and_stack_pointer_move_together (sample_config true)
              (sample_env true OK 0x3000 (inl 9))
              (sample_context 0x1F80 0x1F00) (sample_kernel 0x2000 0x1000)
              fresh_child scenario_child)
    as (ret & k' & c & childFp & childSp & Hrun & Hc & Hfp & Hsp & Hdist & _).
  - unfold reaches_transfer. concrete.
  - unfold parent_stack_ok, stack_base. concrete.
  - vm_compute. congruence.
  - unfold stack_allocated, stack_base. concrete.
  - vm_compute. congruence.
  - concrete.
  - vm_compute. lia.
  - vm_compute. lia.
  - vm_compute. congruence.
  - exists ret, k', c, childFp, childSp.
    split; [exact Hrun|]. split; [exact Hc|]. split; [exact Hfp|].
    split; [exact Hsp|]. exact Hdist.
Defined.

(** X6: re-basing keeps the alignment of the stack pointer.  Under the
    conditions of X4 on the stack pointer and the allocator, if the child's
    and the parent's adjusted stack tops are congruent modulo
    STACK_ALIGNMENT, the child's saved stack pointer is congruent to the
    captured stack pointer; in particular it is aligned when the two tops and
    the captured stack pointer are. *)
Theorem stack_pointer_alignment_kept cfg env context k c0 c1 :
  reaches_transfer cfg env context k c0 c1 ->
  parent_stack_ok cfg (parent_tcb k) ->
  stack_allocated cfg (parent_stacksize cfg (parent_tcb k)) (cmn c1) ->
  stack_base (parent_tcb k) <= sp context <= adj_stack_ptr (parent_tcb k) ->
  (REG_SP cfg < length (regs (xcp (cmn c1))))%nat ->
  adj_stack_ptr (cmn c1) mod STACK_ALIGNMENT cfg
  = adj_stack_ptr (parent_tcb k) mod STACK_ALIGNMENT cfg ->
  exists ret k' c childSp,
    up_vfork cfg env context k = Returned ret k'
    /\ child_tcb k' = Some c
    /\ regs (xcp (cmn c)) !! REG_SP cfg = Some childSp
    /\ childSp mod STACK_ALIGNMENT cfg = sp context mod STACK_ALIGNMENT cfg.
Proof.
  intros Hreach (Ha & Hsz & Hbase & Htop & Hpad) (Hcb & Hct & Hcs) [Hlo Hhi]
         Hlen Hcong.
  destruct (up_vfork_saved_pointers _ _ _ _ _ _ Hreach)
    as (ret & k' & c & Hrun & Hchild & _ & _ & Hsp & _).
  exists ret, k', c, (new_sp (parent_tcb k) context c1).
  split; [exact Hrun|]. split; [exact Hchild|]. split; [now apply Hsp|].
  unfold parent_stacksize in Hcs. rewrite wrap_small in Hcs by lia.
  unfold stack_base in *. unfold new_sp, stack_utilization.
  rewrite (sub32_exact (adj_stack_ptr (parent_tcb k))) by lia.
  rewrite sub32_exact by lia.
  replace (adj_stack_ptr (cmn c1) - (adj_stack_ptr (parent_tcb k) - sp context))
    with (sp context + (adj_stack_ptr (cmn c1) - adj_stack_ptr (parent_tcb k)))
    by lia.
  rewrite Z.add_mod, Zminus_mod, Hcong, Z.sub_diag by lia.
  rewrite Z.mod_0_l, Z.add_0_r, Z.mod_mod by lia. reflexivity.
Qed.

Lemma stack_pointer_alignment_kept_witness :
  exists ret k' c childSp,
    up_vfork (sample_config true) (sample_env true OK 0x3000 (inl 9))
             (sample_context 0x1F80 0x1F04) (sample_kernel 0x2000 0x1000)
    = Returned ret k'
    /\ child_tcb k' = Some c
    /\ regs (xcp (cmn c)) !! 0%nat = Some childSp
    /\ childSp mod 8 = 4.
Proof.
  destruct (stack_pointer_alignment_kept (sample_config true)
              (sample_env true OK 0x3000 (inl 9))
              (sample_context 0x1F80 0x1F04) (sample_kernel 0x2000 0x1000)
              fresh_child scenario_child)
    as (ret & k' & c & childSp & Hrun & Hc & Hsp & Hmod).
  - unfold reaches_transfer. concrete.
  - unfold parent_stack_ok, stack_base. concrete.
  - unfold stack_allocated, stack_base. concrete.
  - unfold stack_base. concrete.
  - vm_compute. lia.
  - reflexivity.
  - exists ret, k', c, childSp.
    split; [exact Hrun|]. split; [exact Hc|]. split; [exact Hsp|]. exact Hmod.
Defined.

(** X7: a call either reaches the transfer or writes nothing: when the
    set-up fails, the allocator fails or the DEBUGASSERT fails, memory is
    byte for byte what it was, the child TCB (if there is one) is exactly as
    the allocator returned it, and neither memcpy nor task_vforkstart is
    called. *)
Theorem nothing_written_before_transfer cfg env context k :
  (exists c0 c1, reaches_transfer cfg env context k c0 c1)
  \/ ((forall a, memory (outcome_kernel (up_vfork cfg env context k)) a
                 = memory k a)
      /\ final_child (up_vfork cfg env context k)
         = match task_vforksetup env (entry_point context) with
           | None => child_tcb k
           | Some c0 =>
               Some (snd (up_create_stack env c0
                            (parent_stacksize cfg (parent_tcb k))
                            (parent_ttype cfg (parent_tcb k))))
           end
      /\ exists evs,
           calls (outcome_kernel (up_vfork cfg env context k)) = calls k ++ evs
           /\ copies evs = []
           /\ count_events is_start evs = O
           /\ scheduled evs = O).
Proof.
  destruct (task_vforksetup env (entry_point context)) as [c0|] eqn:Hsetup.
  2:{ right. rewrite (up_vfork_setup_fails _ _ _ _ Hsetup).
      split; [reflexivity|]. split; [reflexivity|].
      eexists. split; [reflexivity|]. repeat split; reflexivity. }
  destruct (up_vfork_paths cfg env context k c0 Hsetup)
    as (ret & c1 & Hstack & [(Hret & Hrun) | [(-> & Hd & Hsp & Hrun) | (-> & Hreach)]]).
  - right. unfold final_child. rewrite Hrun, Hstack.
    split; [reflexivity|]. split; [reflexivity|].
    eexists. split.
    + cbn. rewrite <- !app_assoc. reflexivity.
    + repeat split; reflexivity.
  - right. unfold final_child. rewrite Hrun, Hstack. cbn [outcome_kernel].
    destruct (heapinfo_state cfg c1 (kernel_after_create_stack cfg context k c0 c1))
      as (_ & Hc & Hm).
    rewrite Hm, Hc, heapinfo_calls.
    split; [reflexivity|]. split; [reflexivity|].
    eexists. split.
    + cbn. rewrite <- !app_assoc. reflexivity.
    + unfold heapinfo_events.
      destruct (CONFIG_DEBUG_MM_HEAPINFO cfg); repeat split; reflexivity.
  - left. eauto.
Qed.

(** X8: when the parent's adjusted stack top is below the padded size
    adj_stack_size + STACK_ALIGNMENT - 1, the unsigned subtraction of line
    204 wraps and no frame pointer passes the window test: the child's
    REG_FP slot holds the captured frame pointer unchanged, also when it
    points into the parent's stack. *)
Theorem window_empty_when_lower_bound_wraps cfg env context k c0 c1 :
  reaches_transfer cfg env context k c0 c1 ->
  0 <= adj_stack_ptr (parent_tcb k) < parent_stacksize cfg (parent_tcb k) ->
  (REG_FP cfg < length (regs (xcp (cmn c1))))%nat ->
  REG_FP cfg <> REG_SP cfg ->
  exists ret k' c,
    up_vfork cfg env context k = Returned ret k'
    /\ child_tcb k' = Some c
    /\ fp_in_window cfg (parent_tcb k) context = false
    /\ regs (xcp (cmn c)) !! REG_FP cfg = Some (fp context).
Proof.
  intros Hreach [Htop0 Htop1] Hlen Hne.
  destruct (up_vfork_saved_pointers _ _ _ _ _ _ Hreach)
    as (ret & k' & c & Hrun & Hchild & _ & _ & _ & Hfp).
  exists ret, k', c. split; [exact Hrun|]. split; [exact Hchild|].
  assert (Hout : fp_in_window cfg (parent_tcb k) context = false).
  { unfold fp_in_window.
    pose proof (wrap_range (adj_stack_size (parent_tcb k) + STACK_ALIGNMENT cfg - 1))
      as Hps. fold (parent_stacksize cfg (parent_tcb k)) in Hps.
    assert (Hlow : sub32 (adj_stack_ptr (parent_tcb k))
                         (parent_stacksize cfg (parent_tcb k))
                   = adj_stack_ptr (parent_tcb k)
                     - parent_stacksize cfg (parent_tcb k) + modulus).
    { unfold sub32, wrap. symmetry. apply Z.mod_unique with (q := -1); lia. }
    rewrite Hlow. apply andb_false_iff.
    destruct (Z.leb_spec (fp context) (adj_stack_ptr (parent_tcb k)));
      [right; apply Z.leb_gt; lia | now left]. }
  split; [exact Hout|].
  rewrite (Hfp Hlen Hne). unfold new_fp. now rewrite Hout.
Qed.

Lemma window_empty_when_lower_bound_wraps_witness :
  exists ret k' c,
    up_vfork (sample_config true) (sample_env true OK 0x3000 (inl 9))
             (sample_context 0x0F80 0x0F00) (sample_kernel 0x1000 0x1000)
    = Returned ret k'
    /\ child_tcb k' = Some c
    /\ in_stack_region (sample_parent 0x1000 0x1000) 0x0F80
    /\ regs (xcp (cmn c)) !! 5%nat = Some 0x0F80.
Proof.
  destruct (window_empty_when_lower_bound_wraps (sample_config true)
              (sample_env true OK 0x3000 (inl 9))
              (sample_context 0x0F80 0x0F00) (sample_kernel 0x1000 0x1000)
              fresh_child scenario_child)
    as (ret & k' & c & Hrun & Hc & _ & Hfp).
  - unfold reaches_transfer. concrete.
  - concrete.
  - vm_compute. lia.
  - vm_compute. congruence.
  - exists ret, k', c. split; [exact Hrun|]. split; [exact Hc|].
    split; [|exact Hfp].
    unfold in_stack_region, stack_base. concrete.
Defined.

(** X9: the heap accounting calls of lines 176 and 178 are made exactly when
    CONFIG_DEBUG_MM_HEAPINFO is set and the allocator returned OK; they are
    then one heapinfo_exclude_stacksize and one heapinfo_set_stack_node, in
    that order, for the child's stack_alloc_ptr and pid as the allocator
    left them.  On a failed set-up or allocation neither is made. *)
Theorem heap_accounting_only_after_allocation cfg env context k :
  exists evs,
    calls (outcome_kernel (up_vfork cfg env context k)) = calls k ++ evs
    /\ heapinfo_log evs
       = match task_vforksetup env (entry_point context) with
         | None => []
         | Some c0 =>
             let r := up_create_stack env c0
                        (parent_stacksize cfg (parent_tcb k))
                        (parent_ttype cfg (parent_tcb k)) in
             if CONFIG_DEBUG_MM_HEAPINFO cfg && (fst r =? OK) then
               [ Ev_heapinfo_exclude_stacksize (stack_alloc_ptr (cmn (snd r)));
                 Ev_heapinfo_set_stack_node (stack_alloc_ptr (cmn (snd r)))
                                            (pid (cmn (snd r))) ]
             else []
         end.
Proof.
  destruct (task_vforksetup env (entry_point context)) as [c0|] eqn:Hsetup.
  2:{ rewrite (up_vfork_setup_fails _ _ _ _ Hsetup).
      eexists. split; reflexivity. }
  destruct (up_vfork_paths cfg env context k c0 Hsetup)
    as (ret & c1 & Hstack & [(Hret & Hrun) | [(-> & Hd & Hsp & Hrun) | (-> & Hreach)]]);
    rewrite Hstack; cbn [fst snd].
  - rewrite Hrun. eexists. split.
    + cbn. rewrite <- !app_assoc. reflexivity.
    + apply Z.eqb_neq in Hret. rewrite Hret, andb_false_r. reflexivity.
  - rewrite Hrun. cbn [outcome_kernel]. rewrite heapinfo_calls.
    eexists. split.
    + cbn. rewrite <- !app_assoc. reflexivity.
    + unfold heapinfo_events.
      destruct (CONFIG_DEBUG_MM_HEAPINFO cfg); reflexivity.
  - destruct (up_vfork_success _ _ _ _ _ _ Hreach)
      as (r & k' & Hrun & _ & _ & _ & _ & Hcalls).
    rewrite Hrun. cbn [outcome_kernel].
    eexists. split; [exact Hcalls|].
    unfold transfer_events, heapinfo_events, start_events.
    destruct (CONFIG_DEBUG_MM_HEAPINFO cfg);
      destruct (task_activate env _); reflexivity.
Qed.

(** X10: a captured stack pointer equal to the parent's adjusted stack top
    (an empty stack) gets past line 187 only in a build without DEBUGASSERT;
    the call then copies zero bytes, leaves memory as it was, and saves the
    child's adjusted stack top as the child's stack pointer. *)
Theorem empty_stack_copies_nothing cfg env context k c0 c1 :
  reaches_transfer cfg env context k c0 c1 ->
  sp context = adj_stack_ptr (parent_tcb k) ->
  is_word (adj_stack_ptr (cmn c1)) ->
  (REG_SP cfg < length (regs (xcp (cmn c1))))%nat ->
  CONFIG_DEBUG cfg = false
  /\ exists ret k' c evs,
       up_vfork cfg env context k = Returned ret k'
       /\ child_tcb k' = Some c
       /\ calls k' = calls k ++ evs
       /\ copies evs = [(adj_stack_ptr (cmn c1), sp context, 0)]
       /\ (forall a, memory k' a = memory k a)
       /\ regs (xcp (cmn c)) !! REG_SP cfg = Some (adj_stack_ptr (cmn c1)).
Proof.
  intros Hreach Heq Hctop Hlen.
  split.
  { destruct Hreach as (_ & _ & Hassert).
    destruct (CONFIG_DEBUG cfg); [|reflexivity].
    specialize (Hassert eq_refl). lia. }
  destruct (up_vfork_success _ _ _ _ _ _ Hreach)
    as (ret & k' & Hrun & _ & _ & Hchild & Hmem & Hcalls).
  assert (Hn : stack_utilization (parent_tcb k) context = 0).
  { unfold stack_utilization, sub32. rewrite Heq, Z.sub_diag. reflexivity. }
  assert (Hnew : new_sp (parent_tcb k) context c1 = adj_stack_ptr (cmn c1)).
  { unfold new_sp. rewrite Hn. unfold sub32. rewrite Z.sub_0_r.
    now apply wrap_small. }
  exists ret, k', (transfer_context cfg (parent_tcb k) context c1),
         (transfer_events cfg env context k c1).
  split; [exact Hrun|]. split; [exact Hchild|]. split; [exact Hcalls|].
  destruct (transfer_events_summary cfg env context k c1) as (-> & _).
  rewrite Hn, Hnew. split; [reflexivity|]. split.
  - intros a. rewrite Hmem, Hn. apply memcpy_bytes_outside. lia.
  - rewrite transfer_context_regs, <- Hnew. now apply saved_sp.
Qed.

Lemma empty_stack_copies_nothing_witness :
  exists ret k' c,
    up_vfork (sample_config false) (sample_env true OK 0x3000 (inl 9))
             (sample_context 0x1F80 0x2000) (sample_kernel 0x2000 0x1000)
    = Returned ret k'
    /\ child_tcb k' = Some c
    /\ copies (calls k') = [(0x4000, 0x2000, 0)]
    /\ regs (xcp (cmn c)) !! 0%nat = Some 0x4000.
Proof.
  destruct (empty_stack_copies_nothing (sample_config false)
              (sample_env true OK 0x3000 (inl 9))
              (sample_context 0x1F80 0x2000) (sample_kernel 0x2000 0x1000)
              fresh_child scenario_child)
    as (_ & ret & k' & c & evs & Hrun & Hc & Hcalls & Hcopies & _ & Hsp).
  - unfold reaches_transfer.
    split; [reflexivity|]. split; [reflexivity|]. intros H. discriminate H.
  - reflexivity.
  - unfold is_word. concrete.
  - vm_compute. lia.
  - exists ret, k', c. split; [exact Hrun|]. split; [exact Hc|].
    split; [rewrite Hcalls; exact Hcopies | exact Hsp].
Defined.
